(** * ANASAR hospital-management client: consultation form and session store

    A shallow embedding of the consultation-authoring page
    ([src/pages/consultation/ConsultationPage.tsx]), the session store
    ([src/store/auth.ts]), the [useAuth] hook, the route guard
    ([src/components/auth/ProtectedRoute.tsx]), the routes ([src/App.tsx]),
    the sidebar layout and the dashboard's date window
    ([src/pages/DashboardPage.tsx]), with the properties the specification
    states about them and further properties read off the code.

    JavaScript numbers are IEEE-754 binary64 values, modelled by Rocq's
    primitive floats; [undefined] and [null] are [None]. Calls to the hosted
    backend are answered by an oracle record, so every function below is a
    total, executable function of its inputs and of the backend's answers. *)

From Stdlib Require Import ZArith Floats Uint63 Ascii String.
From stdpp Require Import base option list strings pretty.

(* ===================================================================== *)
(** * Part I: the model                                                   *)
(* ===================================================================== *)

(** ** JavaScript numbers *)

Module JsNumber.

(** [Number.isNaN] (zod's [z.number()] refuses NaN with it). *)
Definition isNaN (x : float) : bool :=
  match classify x with
  | NaN => true
  | _ => false
  end.

(** [ToBoolean] on a number: [+0], [-0] and [NaN] are falsy. *)
Definition truthy_class (c : float_class) : bool :=
  match c with
  | PZero | NZero | NaN => false
  | _ => true
  end.

Definition ToBoolean (x : float) : bool := truthy_class (classify x).

(** The number with the integer value [n], for [|n| < 2^53]. *)
Definition of_Z (n : Z) : float :=
  match n with
  | Z0 => 0%float
  | Zpos _ => PrimFloat.of_uint63 (Uint63.of_Z n)
  | Zneg p => (- PrimFloat.of_uint63 (Uint63.of_Z (Zpos p)))%float
  end.

(** [Math.round]: the integral number closest to [x], the one closer to
    +infinity on a tie; an integral or non-finite [x] is returned as it
    is, and a result of zero keeps the sign of [x]. A finite [x] is
    [±m * 2^e]; for [e < 0] the result is [floor (x + 1/2)], computed on
    integers as [(±2m + 2^-e) / 2^(1-e)]. *)
Definition Math_round (x : float) : float :=
  match Prim2SF x with
  | S754_finite s m e =>
      if (0 <=? e)%Z then x
      else
        let k := (- e)%Z in
        let twice := if s then (- Z.pos m~0)%Z else Z.pos m~0 in
        let n := Z.shiftr (twice + Z.shiftl 1 k) (k + 1) in
        if (n =? 0)%Z then (if s then (-0)%float else 0%float) else of_Z n
  | _ => x
  end.

(** *** [Number::toString] (radix 10)

    The digits are those of the shortest decimal [s * 10^(n-k)], [s] of
    [k] digits, that reads back as [x]; among several the one closest to
    [x]. All comparisons are between exact integers: [x = m * 2^e] on
    one side and [s * 10^t] on the other. *)

Definition pow_pos_part (b z : Z) : Z :=
  if (0 <=? z)%Z then (b ^ z)%Z else 1%Z.

(** [s * 10^t] compared with [a * 2^g]. *)
Definition compare_scaled (s t a g : Z) : comparison :=
  (s * pow_pos_part 10 t * pow_pos_part 2 (- g)
     ?= a * pow_pos_part 2 g * pow_pos_part 10 (- t))%Z.

(** [floor (a * 2^g / 10^t)]. *)
Definition floor_scaled (a g t : Z) : Z :=
  ((a * pow_pos_part 2 g * pow_pos_part 10 (- t))
     / (pow_pos_part 2 (- g) * pow_pos_part 10 t))%Z.

(** The least [n >= n0] with [m * 2^e < 10^n]. *)
Fixpoint decimal_exponent (fuel : nat) (n : Z) (m e : Z) : Z :=
  match fuel with
  | O => n
  | S fuel' =>
      match compare_scaled 1 n m e with
      | Gt => n
      | _ => decimal_exponent fuel' (n + 1)%Z m e
      end
  end.

(** Does the real [s * 10^t] round (to nearest, ties to even) to the
    double [m * 2^e]?  It does when it lies between the midpoints with the
    two neighbouring doubles, the midpoints included when [m] is even. *)
Definition rounds_to (m e : Z) (s t : Z) : bool :=
  let boundary := ((m =? 2 ^ 52) && (-1074 <? e))%Z in
  let below := if boundary then (4 * m - 1)%Z else (4 * m - 2)%Z in
  let above := (4 * m + 2)%Z in
  let closed := Z.even m in
  let ok_low := match compare_scaled s t below (e - 2) with
                | Gt => true | Eq => closed | Lt => false end in
  let ok_high := match compare_scaled s t above (e - 2) with
                 | Lt => true | Eq => closed | Gt => false end in
  ok_low && ok_high.

(** The [k]-digit decimal for [m * 2^e], if there is one, with its decimal
    exponent ([n + 1] when the digits round up to [10^k]). *)
Definition candidate (m e n k : Z) : option (Z * Z) :=
  let t := (n - k)%Z in
  let s0 := floor_scaled m e t in
  let s1 := (s0 + 1)%Z in
  let fits s := (10 ^ (k - 1) <=? s)%Z && rounds_to m e s t in
  let carry s := if (s =? 10 ^ k)%Z then (10 ^ (k - 1), n + 1)%Z else (s, n) in
  match fits s0, fits s1 with
  | true, false => Some (s0, n)
  | false, true => Some (carry s1)
  | true, true =>
      match compare_scaled (2 * s0 + 1) t (2 * m) e with
      | Gt => Some (s0, n)
      | Lt => Some (carry s1)
      | Eq => Some (if Z.even s0 then (s0, n) else carry s1)
      end
  | false, false => None
  end.

Fixpoint shortest (fuel : nat) (k : Z) (m e n : Z) : Z * Z * Z :=
  match fuel with
  | O => (m, k, n)
  | S fuel' =>
      match candidate m e n k with
      | Some (s, n') => (s, k, n')
      | None => shortest fuel' (k + 1)%Z m e n
      end
  end.

Definition zeros (n : Z) : string :=
  String.concat "" (replicate (Z.to_nat n) "0").

Definition format_digits (s k n : Z) : string :=
  let ds := pretty s in
  if ((k <=? n) && (n <=? 21))%Z then ds +:+ zeros (n - k)
  else if ((0 <? n) && (n <=? 21))%Z then
    String.substring 0 (Z.to_nat n) ds +:+ "." +:+
    String.substring (Z.to_nat n) (Z.to_nat (k - n)) ds
  else if ((-6 <? n) && (n <=? 0))%Z then "0." +:+ zeros (- n) +:+ ds
  else
    let e := (n - 1)%Z in
    let c := if (e <? 0)%Z then "-" else "+" in
    if (k =? 1)%Z then ds +:+ "e" +:+ c +:+ pretty (Z.abs e)
    else String.substring 0 1 ds +:+ "." +:+
         String.substring 1 (Z.to_nat (k - 1)) ds +:+ "e" +:+ c +:+ pretty (Z.abs e).

(** What a template literal [`${x}`] prints for a number. *)
Definition Number_toString (x : float) : string :=
  match Prim2SF x with
  | S754_nan => "NaN"
  | S754_zero _ => "0"
  | S754_infinity s => if s then "-Infinity" else "Infinity"
  | S754_finite sg m e =>
      let b := (Z.log2 (Z.pos m) + e)%Z in
      let n0 := decimal_exponent 8 (b * 30103 / 100000 - 1) (Z.pos m) e in
      let '(s, k, n) := shortest 17 1 (Z.pos m) e n0 in
      (if sg then "-" else "") +:+ format_digits s k n
  end.

End JsNumber.

(** ** JavaScript dates

    A [Date] holds a time value: milliseconds since 1970-01-01T00:00:00Z.
    The functions are those of the ECMAScript specification, over [Z];
    the local time zone is a fixed offset [tza] in milliseconds (a zone
    without daylight saving, such as Asia/Kolkata at +05:30). *)

Module JsDate.

Local Open Scope Z_scope.

Definition msPerDay : Z := 86400000.
Definition msPerMinute : Z := 60000.

Definition Day (t : Z) : Z := t / msPerDay.
Definition TimeWithinDay (t : Z) : Z := t mod msPerDay.

Definition DayFromYear (y : Z) : Z :=
  365 * (y - 1970) + (y - 1969) / 4 - (y - 1901) / 100 + (y - 1601) / 400.

Definition InLeapYear_of (y : Z) : Z :=
  if (y mod 4 =? 0) && (negb (y mod 100 =? 0) || (y mod 400 =? 0)) then 1 else 0.

(** The largest [y] with [DayFromYear y <= Day t]. *)
Definition YearFromTime (t : Z) : Z :=
  let d := Day t in
  let est := 1970 + d * 400 / 146097 in
  if DayFromYear (est + 1) <=? d then est + 1
  else if DayFromYear est <=? d then est
  else est - 1.

Definition DayWithinYear (t : Z) : Z := Day t - DayFromYear (YearFromTime t).

(** Days of the year before month [m] (0-based) in a year with leap flag [l]. *)
Definition daysBeforeMonth (l m : Z) : Z :=
  match m with
  | 0 => 0
  | 1 => 31
  | 2 => 59 + l
  | 3 => 90 + l
  | 4 => 120 + l
  | 5 => 151 + l
  | 6 => 181 + l
  | 7 => 212 + l
  | 8 => 243 + l
  | 9 => 273 + l
  | 10 => 304 + l
  | _ => 334 + l
  end.

Definition MonthFromTime (t : Z) : Z :=
  let l := InLeapYear_of (YearFromTime t) in
  let d := DayWithinYear t in
  if d <? 31 then 0
  else if d <? 59 + l then 1
  else if d <? 90 + l then 2
  else if d <? 120 + l then 3
  else if d <? 151 + l then 4
  else if d <? 181 + l then 5
  else if d <? 212 + l then 6
  else if d <? 243 + l then 7
  else if d <? 273 + l then 8
  else if d <? 304 + l then 9
  else if d <? 334 + l then 10
  else 11.

Definition DateFromTime (t : Z) : Z :=
  let l := InLeapYear_of (YearFromTime t) in
  DayWithinYear t - daysBeforeMonth l (MonthFromTime t) + 1.

(** [MakeDay]: a month outside [0..11] carries into the year, and a date
    outside the month carries into the following (or preceding) days. *)
Definition MakeDay (year month date : Z) : Z :=
  let ym := year + month / 12 in
  let mn := month mod 12 in
  DayFromYear ym + daysBeforeMonth (InLeapYear_of ym) mn + date - 1.

Definition MakeDate (day time : Z) : Z := day * msPerDay + time.

Section Zone.
Variable tza : Z.

Definition LocalTime (t : Z) : Z := t + tza.
Definition UTC (t : Z) : Z := t - tza.

Definition getDate (t : Z) : Z := DateFromTime (LocalTime t).
Definition getMonth (t : Z) : Z := MonthFromTime (LocalTime t).
Definition getFullYear (t : Z) : Z := YearFromTime (LocalTime t).

(** [date.setDate(dt)] and [date.setMonth(m)]: the new time value. *)
Definition setDate (t dt : Z) : Z :=
  let lt := LocalTime t in
  UTC (MakeDate (MakeDay (YearFromTime lt) (MonthFromTime lt) dt) (TimeWithinDay lt)).

Definition setMonth (t m : Z) : Z :=
  let lt := LocalTime t in
  UTC (MakeDate (MakeDay (YearFromTime lt) m (DateFromTime lt)) (TimeWithinDay lt)).

End Zone.

(** Decimal digits of [n >= 0], left-padded with zeros to [width]. *)
Definition pad (width : nat) (n : Z) : string :=
  let ds := pretty n in
  String.concat "" (replicate (width - String.length ds) "0") +:+ ds.

(** [toISOString]: always in UTC, [YYYY-MM-DDTHH:mm:ss.sssZ]; years outside
    [0..9999] are written with a sign and six digits. *)
Definition toISOString (t : Z) : string :=
  let y := YearFromTime t in
  let w := TimeWithinDay t in
  let year := if (0 <=? y) && (y <=? 9999) then pad 4 y
              else (if y <? 0 then "-" else "+") +:+ pad 6 (Z.abs y) in
  year +:+ "-" +:+ pad 2 (MonthFromTime t + 1) +:+ "-" +:+ pad 2 (DateFromTime t)
    +:+ "T" +:+ pad 2 (w / 3600000) +:+ ":" +:+ pad 2 (w / 60000 mod 60)
    +:+ ":" +:+ pad 2 (w / 1000 mod 60) +:+ "." +:+ pad 3 (w mod 1000) +:+ "Z".

(** [s.split(c)[0]]: the part of [s] before the first [c]. *)
Fixpoint split_head (c : ascii) (s : string) : string :=
  match s with
  | EmptyString => EmptyString
  | String a rest => if Ascii.eqb a c then EmptyString else String a (split_head c rest)
  end.

(** Time value of a civil date and time of day in UTC (months 1-based). *)
Definition utc (y mo d h mi : Z) : Z :=
  MakeDate (MakeDay y (mo - 1) d) (h * 3600000 + mi * msPerMinute).

End JsDate.

(** ** The consultation page ([ConsultationPage.tsx]) *)

(** A promise of the backend client, once settled. *)
Inductive Settled (A : Type) : Type :=
| Resolved (value : A)
| Rejected (message : string).

Arguments Resolved {A} value.
Arguments Rejected {A} message.

(** The [{ error }] part of a PostgREST response to a write. *)
Record PostgrestResponse : Type := { error_message : option string }.

Module Symptom.
Record t : Type := { name : string; severity : string; duration : string }.
End Symptom.

Module Diagnosis.
Inductive kind : Type := primary | secondary.
Record t : Type := { code : string; name : string; type : kind }.
End Diagnosis.

Module Medication.
Record t : Type :=
  { type : string; name : string; dose : string; frequency : string;
    duration : string; quantity : string; instruction : string }.
End Medication.

Module Investigation.
Inductive kind : Type := lab | radiology.
Record t : Type :=
  { type : kind; name : string; urgency : string; instructions : string }.
End Investigation.

Module Advice.
Record t : Type := { category : string; text : string }.
End Advice.

Module Consultation.

Import JsNumber.

(** The values of the form, [z.infer<typeof consultationSchema>]. The five
    lists start as [[]] ([defaultValues]) and stay arrays. *)
Record ConsultationForm : Type :=
  { weight : option float;
    height : option float;
    bmi : option float;
    bsa : option float;
    systolic : option float;
    diastolic : option float;
    pulse : option float;
    temperature : option float;
    spo2 : option float;
    symptoms : list Symptom.t;
    diagnosis : list Diagnosis.t;
    medications : list Medication.t;
    investigations : list Investigation.t;
    advice : list Advice.t;
    followUpDate : option string;
    followUpDuration : option string;
    clinicalNotes : option string;
    treatmentPlan : option string }.

Definition defaultValues : ConsultationForm :=
  {| weight := None; height := None; bmi := None; bsa := None;
     systolic := None; diastolic := None; pulse := None;
     temperature := None; spo2 := None;
     symptoms := []; diagnosis := []; medications := [];
     investigations := []; advice := [];
     followUpDate := None; followUpDuration := None;
     clinicalNotes := None; treatmentPlan := None |}.

(** [setValue(name, value)], one function per field the page writes. *)
Definition setValue_bmi (v : float) (f : ConsultationForm) : ConsultationForm :=
  {| weight := weight f; height := height f; bmi := Some v; bsa := bsa f;
     systolic := systolic f; diastolic := diastolic f; pulse := pulse f;
     temperature := temperature f; spo2 := spo2 f;
     symptoms := symptoms f; diagnosis := diagnosis f;
     medications := medications f; investigations := investigations f;
     advice := advice f;
     followUpDate := followUpDate f; followUpDuration := followUpDuration f;
     clinicalNotes := clinicalNotes f; treatmentPlan := treatmentPlan f |}.

Definition setValue_bsa (v : float) (f : ConsultationForm) : ConsultationForm :=
  {| weight := weight f; height := height f; bmi := bmi f; bsa := Some v;
     systolic := systolic f; diastolic := diastolic f; pulse := pulse f;
     temperature := temperature f; spo2 := spo2 f;
     symptoms := symptoms f; diagnosis := diagnosis f;
     medications := medications f; investigations := investigations f;
     advice := advice f;
     followUpDate := followUpDate f; followUpDuration := followUpDuration f;
     clinicalNotes := clinicalNotes f; treatmentPlan := treatmentPlan f |}.

Definition setValue_followUpDate (v : string) (f : ConsultationForm) : ConsultationForm :=
  {| weight := weight f; height := height f; bmi := bmi f; bsa := bsa f;
     systolic := systolic f; diastolic := diastolic f; pulse := pulse f;
     temperature := temperature f; spo2 := spo2 f;
     symptoms := symptoms f; diagnosis := diagnosis f;
     medications := medications f; investigations := investigations f;
     advice := advice f;
     followUpDate := Some v; followUpDuration := followUpDuration f;
     clinicalNotes := clinicalNotes f; treatmentPlan := treatmentPlan f |}.

Definition setValue_followUpDuration (v : string) (f : ConsultationForm) : ConsultationForm :=
  {| weight := weight f; height := height f; bmi := bmi f; bsa := bsa f;
     systolic := systolic f; diastolic := diastolic f; pulse := pulse f;
     temperature := temperature f; spo2 := spo2 f;
     symptoms := symptoms f; diagnosis := diagnosis f;
     medications := medications f; investigations := investigations f;
     advice := advice f;
     followUpDate := followUpDate f; followUpDuration := Some v;
     clinicalNotes := clinicalNotes f; treatmentPlan := treatmentPlan f |}.

(** The five [useFieldArray] lists are written through these. *)
Definition with_symptoms (l : list Symptom.t) (f : ConsultationForm) : ConsultationForm :=
  {| weight := weight f; height := height f; bmi := bmi f; bsa := bsa f;
     systolic := systolic f; diastolic := diastolic f; pulse := pulse f;
     temperature := temperature f; spo2 := spo2 f;
     symptoms := l; diagnosis := diagnosis f;
     medications := medications f; investigations := investigations f;
     advice := advice f;
     followUpDate := followUpDate f; followUpDuration := followUpDuration f;
     clinicalNotes := clinicalNotes f; treatmentPlan := treatmentPlan f |}.

Definition with_diagnosis (l : list Diagnosis.t) (f : ConsultationForm) : ConsultationForm :=
  {| weight := weight f; height := height f; bmi := bmi f; bsa := bsa f;
     systolic := systolic f; diastolic := diastolic f; pulse := pulse f;
     temperature := temperature f; spo2 := spo2 f;
     symptoms := symptoms f; diagnosis := l;
     medications := medications f; investigations := investigations f;
     advice := advice f;
     followUpDate := followUpDate f; followUpDuration := followUpDuration f;
     clinicalNotes := clinicalNotes f; treatmentPlan := treatmentPlan f |}.

Definition with_medications (l : list Medication.t) (f : ConsultationForm) : ConsultationForm :=
  {| weight := weight f; height := height f; bmi := bmi f; bsa := bsa f;
     systolic := systolic f; diastolic := diastolic f; pulse := pulse f;
     temperature := temperature f; spo2 := spo2 f;
     symptoms := symptoms f; diagnosis := diagnosis f;
     medications := l; investigations := investigations f;
     advice := advice f;
     followUpDate := followUpDate f; followUpDuration := followUpDuration f;
     clinicalNotes := clinicalNotes f; treatmentPlan := treatmentPlan f |}.

Definition with_investigations (l : list Investigation.t) (f : ConsultationForm) : ConsultationForm :=
  {| weight := weight f; height := height f; bmi := bmi f; bsa := bsa f;
     systolic := systolic f; diastolic := diastolic f; pulse := pulse f;
     temperature := temperature f; spo2 := spo2 f;
     symptoms := symptoms f; diagnosis := diagnosis f;
     medications := medications f; investigations := l;
     advice := advice f;
     followUpDate := followUpDate f; followUpDuration := followUpDuration f;
     clinicalNotes := clinicalNotes f; treatmentPlan := treatmentPlan f |}.

Definition with_advice (l : list Advice.t) (f : ConsultationForm) : ConsultationForm :=
  {| weight := weight f; height := height f; bmi := bmi f; bsa := bsa f;
     systolic := systolic f; diastolic := diastolic f; pulse := pulse f;
     temperature := temperature f; spo2 := spo2 f;
     symptoms := symptoms f; diagnosis := diagnosis f;
     medications := medications f; investigations := investigations f;
     advice := l;
     followUpDate := followUpDate f; followUpDuration := followUpDuration f;
     clinicalNotes := clinicalNotes f; treatmentPlan := treatmentPlan f |}.

(** *** Derived vitals: the body of the BMI/BSA effect

    [if (watchedWeight && watchedHeight) { ... setValue('bmi', ...);
    setValue('bsa', ...) }]. *)
Definition recomputeDerivedVitals (f : ConsultationForm) : ConsultationForm :=
  match weight f, height f with
  | Some watchedWeight, Some watchedHeight =>
      if ToBoolean watchedWeight && ToBoolean watchedHeight then
        let heightInMeters := (watchedHeight / 100)%float in
        let bmi := (watchedWeight / (heightInMeters * heightInMeters))%float in
        let bsa := PrimFloat.sqrt (watchedWeight * watchedHeight / 3600)%float in
        setValue_bsa (Math_round (bsa * 100) / 100)%float
          (setValue_bmi (Math_round (bmi * 10) / 10)%float f)
      else f
  | _, _ => f
  end.

(** *** [useFieldArray]: [append] and [remove(index)] *)
Section FieldArray.
Context {A : Type}.

Definition append (fields : list A) (value : A) : list A := fields ++ [value].

(** [remove(index)] copies the array and splices one element out at
    [index]; past the end the splice removes nothing. *)
Definition remove (index : nat) (fields : list A) : list A :=
  take index fields ++ drop (S index) fields.

End FieldArray.

(** *** The page: the form and the search boxes *)
Record Page : Type :=
  { form : ConsultationForm;
    symptomSearch : string;
    diagnosisSearch : string;
    medicationSearch : string;
    labSearch : string;
    radiologySearch : string }.

Definition with_form (f : ConsultationForm) (p : Page) : Page :=
  {| form := f; symptomSearch := symptomSearch p;
     diagnosisSearch := diagnosisSearch p; medicationSearch := medicationSearch p;
     labSearch := labSearch p; radiologySearch := radiologySearch p |}.

Definition setSymptomSearch (s : string) (p : Page) : Page :=
  {| form := form p; symptomSearch := s;
     diagnosisSearch := diagnosisSearch p; medicationSearch := medicationSearch p;
     labSearch := labSearch p; radiologySearch := radiologySearch p |}.

Definition setDiagnosisSearch (s : string) (p : Page) : Page :=
  {| form := form p; symptomSearch := symptomSearch p;
     diagnosisSearch := s; medicationSearch := medicationSearch p;
     labSearch := labSearch p; radiologySearch := radiologySearch p |}.

Definition setLabSearch (s : string) (p : Page) : Page :=
  {| form := form p; symptomSearch := symptomSearch p;
     diagnosisSearch := diagnosisSearch p; medicationSearch := medicationSearch p;
     labSearch := s; radiologySearch := radiologySearch p |}.

Definition setRadiologySearch (s : string) (p : Page) : Page :=
  {| form := form p; symptomSearch := symptomSearch p;
     diagnosisSearch := diagnosisSearch p; medicationSearch := medicationSearch p;
     labSearch := labSearch p; radiologySearch := s |}.

Definition appendSymptom (v : Symptom.t) (p : Page) : Page :=
  with_form (with_symptoms (append (symptoms (form p)) v) (form p)) p.
Definition appendDiagnosis (v : Diagnosis.t) (p : Page) : Page :=
  with_form (with_diagnosis (append (diagnosis (form p)) v) (form p)) p.
Definition appendMedication (v : Medication.t) (p : Page) : Page :=
  with_form (with_medications (append (medications (form p)) v) (form p)) p.
Definition appendInvestigation (v : Investigation.t) (p : Page) : Page :=
  with_form (with_investigations (append (investigations (form p)) v) (form p)) p.
Definition appendAdvice (v : Advice.t) (p : Page) : Page :=
  with_form (with_advice (append (advice (form p)) v) (form p)) p.

Definition removeSymptom (index : nat) (p : Page) : Page :=
  with_form (with_symptoms (remove index (symptoms (form p))) (form p)) p.
Definition removeDiagnosis (index : nat) (p : Page) : Page :=
  with_form (with_diagnosis (remove index (diagnosis (form p))) (form p)) p.
Definition removeMedication (index : nat) (p : Page) : Page :=
  with_form (with_medications (remove index (medications (form p))) (form p)) p.
Definition removeInvestigation (index : nat) (p : Page) : Page :=
  with_form (with_investigations (remove index (investigations (form p))) (form p)) p.
Definition removeAdvice (index : nat) (p : Page) : Page :=
  with_form (with_advice (remove index (advice (form p))) (form p)) p.

(** *** The add functions *)
Definition addSymptom (symptomName : string) (p : Page) : Page :=
  setSymptomSearch ""
    (appendSymptom
       {| Symptom.name := symptomName;
          Symptom.severity := "Mild";
          Symptom.duration := "1 day" |} p).

(** The argument is an entry of the diagnosis catalogue, [{ code, name }]. *)
Definition addDiagnosis (diagnosis_code diagnosis_name : string) (p : Page) : Page :=
  setDiagnosisSearch ""
    (appendDiagnosis
       {| Diagnosis.code := diagnosis_code;
          Diagnosis.name := diagnosis_name;
          Diagnosis.type := Diagnosis.primary |} p).

Definition addMedication (p : Page) : Page :=
  appendMedication
    {| Medication.type := "Tablet";
       Medication.name := "";
       Medication.dose := "";
       Medication.frequency := "BD";
       Medication.duration := "5 days";
       Medication.quantity := "10";
       Medication.instruction := "After food" |} p.

Definition addLabInvestigation (testName : string) (p : Page) : Page :=
  setLabSearch ""
    (appendInvestigation
       {| Investigation.type := Investigation.lab;
          Investigation.name := testName;
          Investigation.urgency := "Routine";
          Investigation.instructions := "" |} p).

Definition addRadiologyInvestigation (testName : string) (p : Page) : Page :=
  setRadiologySearch ""
    (appendInvestigation
       {| Investigation.type := Investigation.radiology;
          Investigation.name := testName;
          Investigation.urgency := "Routine";
          Investigation.instructions := "" |} p).

Definition addAdviceFromCategory (category adviceText : string) (p : Page) : Page :=
  appendAdvice {| Advice.category := category; Advice.text := adviceText |} p.

(** *** Validation: [consultationSchema] through [zodResolver] *)
Inductive IssueCode : Type := invalid_type | too_small | too_big.

Record ZodIssue : Type := { path : string; code : IssueCode }.

(** [z.number().min(lo).max(hi).optional()]: [undefined] passes; NaN is
    not a number for zod; then [x < lo] is too small and [x > hi] too big. *)
Definition number_min_max_optional
    (field : string) (lo hi : float) (v : option float) : list ZodIssue :=
  match v with
  | None => []
  | Some x =>
      if isNaN x then [{| path := field; code := invalid_type |}]
      else
        (if (x <? lo)%float then [{| path := field; code := too_small |}] else [])
        ++ (if (hi <? x)%float then [{| path := field; code := too_big |}] else [])
  end.

(** [z.number().optional()]. *)
Definition number_optional (field : string) (v : option float) : list ZodIssue :=
  match v with
  | None => []
  | Some x => if isNaN x then [{| path := field; code := invalid_type |}] else []
  end.

(** The issues zod reports for the form. The lists and the strings are
    well-typed by construction, so only the numbers can fail. *)
Definition issues (f : ConsultationForm) : list ZodIssue :=
  number_min_max_optional "weight" 0 500 (weight f)
  ++ number_min_max_optional "height" 0 300 (height f)
  ++ number_optional "bmi" (bmi f)
  ++ number_optional "bsa" (bsa f)
  ++ number_min_max_optional "systolic" 50 300 (systolic f)
  ++ number_min_max_optional "diastolic" 30 200 (diastolic f)
  ++ number_min_max_optional "pulse" 30 200 (pulse f)
  ++ number_min_max_optional "temperature" 90 110 (temperature f)
  ++ number_min_max_optional "spo2" 70 100 (spo2 f).

(** [consultationSchema.safeParse]: the issues, or the parsed data. *)
Definition consultationSchema (f : ConsultationForm) : list ZodIssue + ConsultationForm :=
  match issues f with
  | [] => inr f
  | errors => inl errors
  end.

(** *** Saving: [onSubmit] behind [handleSubmit] *)
Module VitalSigns.
Record t : Type :=
  { weight : option float; height : option float;
    bmi : option float; bsa : option float;
    blood_pressure : option string;
    pulse : option float; temperature : option float; spo2 : option float }.
End VitalSigns.

Module Prescription.
Record t : Type :=
  { medications : list Medication.t;
    investigations : list Investigation.t;
    advice : list Advice.t }.
End Prescription.

(** The object handed to [supabase.from('appointments').update(...)]. *)
Module AppointmentPatch.
Record t : Type :=
  { status : string;
    vital_signs : VitalSigns.t;
    symptoms : list Symptom.t;
    diagnosis : string;
    prescription : Prescription.t;
    follow_up_date : option string;
    notes : option string;
    updated_at : string }.
End AppointmentPatch.

(** What [onSubmit] does, in order. *)
Inductive Effect : Type :=
| SetSaving (saving : bool)
| UpdateAppointment (id : string) (patch : AppointmentPatch.t)
| Toast (title description variant : string)
| Navigate (to : string)
| ConsoleError (message : string).

(** What the page reads from the route and from [useAuth]. *)
Record Context : Type :=
  { appointmentId : option string;
    hospitalId : option string;
    user : bool }.

(** Truthiness of an optional string: [undefined], [null] and [""] are falsy. *)
Definition truthy_string (s : option string) : bool :=
  match s with
  | Some v => negb (String.eqb v "")
  | None => false
  end.

(** [data.systolic && data.diastolic ? `${data.systolic}/${data.diastolic}` : null] *)
Definition blood_pressure_of (data : ConsultationForm) : option string :=
  match systolic data, diastolic data with
  | Some s, Some d =>
      if ToBoolean s && ToBoolean d
      then Some (Number_toString s +:+ "/" +:+ Number_toString d)
      else None
  | _, _ => None
  end.

Definition patch_of (now : Z) (data : ConsultationForm) : AppointmentPatch.t :=
  {| AppointmentPatch.status := "completed";
     AppointmentPatch.vital_signs :=
       {| VitalSigns.weight := weight data;
          VitalSigns.height := height data;
          VitalSigns.bmi := bmi data;
          VitalSigns.bsa := bsa data;
          VitalSigns.blood_pressure := blood_pressure_of data;
          VitalSigns.pulse := pulse data;
          VitalSigns.temperature := temperature data;
          VitalSigns.spo2 := spo2 data |};
     AppointmentPatch.symptoms := symptoms data;
     AppointmentPatch.diagnosis :=
       String.concat ", " (map Diagnosis.name (diagnosis data));
     AppointmentPatch.prescription :=
       {| Prescription.medications := medications data;
          Prescription.investigations := investigations data;
          Prescription.advice := advice data |};
     AppointmentPatch.follow_up_date := followUpDate data;
     AppointmentPatch.notes := clinicalNotes data;
     AppointmentPatch.updated_at := JsDate.toISOString now |}.

(** The appointment store: how it answers an update. *)
Definition Backend : Type := string -> AppointmentPatch.t -> Settled PostgrestResponse.

(** [error.message || "Failed to save consultation"] *)
Definition save_failed (message : string) : list Effect :=
  [ConsoleError message;
   Toast "Save Failed"
     (if String.eqb message "" then "Failed to save consultation" else message)
     "destructive"].

(** [if (!appointmentId || !hospitalId || !user) return] comes first; then
    the update is awaited between [setSaving(true)] and, in the [finally],
    [setSaving(false)]. An error in the answer is thrown, so it ends in the
    same [catch] as a rejected call. *)
Definition onSubmit (ctx : Context) (now : Z) (backend : Backend)
    (data : ConsultationForm) : list Effect :=
  match appointmentId ctx with
  | Some id =>
      if negb (truthy_string (appointmentId ctx))
         || negb (truthy_string (hospitalId ctx))
         || negb (user ctx)
      then []
      else
        let patch := patch_of now data in
        [SetSaving true; UpdateAppointment id patch]
        ++ match backend id patch with
           | Resolved {| error_message := None |} =>
               [Toast "Consultation Saved"
                  "Patient consultation has been saved successfully" "default";
                Navigate "/appointments"]
           | Resolved {| error_message := Some message |} => save_failed message
           | Rejected message => save_failed message
           end
        ++ [SetSaving false]
  | None => []
  end.

(** [handleSubmit(onSubmit)]: the resolver runs first, and [onSubmit] is
    called with the parsed data only when it reports no issue; otherwise the
    issues become [formState.errors] and nothing else happens. *)
Definition handleSubmit (ctx : Context) (now : Z) (backend : Backend)
    (p : Page) : list ZodIssue * list Effect :=
  match consultationSchema (form p) with
  | inl errors => (errors, [])
  | inr data => ([], onSubmit ctx now backend data)
  end.

(** The update calls among the effects. *)
Definition updates (effects : list Effect) : list (string * AppointmentPatch.t) :=
  omap (fun e => match e with
                 | UpdateAppointment id patch => Some (id, patch)
                 | _ => None
                 end) effects.

(** *** Follow-up: the quick-pick buttons *)
Definition quickPickDurations : list string :=
  ["1 week"; "2 weeks"; "1 month"; "3 months"; "6 months"; "As needed"].

(** The [onClick] of the button labelled [duration]; [now] is the time
    value of [new Date()] and [tza] the offset of the local zone. *)
Definition quickPick (tza now : Z) (duration : string)
    (f : ConsultationForm) : ConsultationForm :=
  let date :=
    if String.eqb duration "1 week"
    then JsDate.setDate tza now (JsDate.getDate tza now + 7)
    else if String.eqb duration "2 weeks"
    then JsDate.setDate tza now (JsDate.getDate tza now + 14)
    else if String.eqb duration "1 month"
    then JsDate.setMonth tza now (JsDate.getMonth tza now + 1)
    else if String.eqb duration "3 months"
    then JsDate.setMonth tza now (JsDate.getMonth tza now + 3)
    else if String.eqb duration "6 months"
    then JsDate.setMonth tza now (JsDate.getMonth tza now + 6)
    else now in
  let f' :=
    if negb (String.eqb duration "As needed")
    then setValue_followUpDate (JsDate.split_head "T" (JsDate.toISOString date)) f
    else f in
  setValue_followUpDuration duration f'.

End Consultation.

(** ** The session store ([store/auth.ts]) and the [useAuth] hook *)

Module User.
(** A row of the [users] table, the application's user profile. *)
Record t : Type :=
  { id : string;
    email : string;
    full_name : string;
    role : string;
    hospital_id : option string;
    is_active : bool }.
End User.

Module Session.
(** A backend session: the token, its expiry (seconds since the epoch) and
    the identity it belongs to ([session.user.id]). *)
Record t : Type :=
  { access_token : string;
    expires_at : option Z;
    user : option string }.
End Session.

Module AuthStore.

Record AuthState : Type :=
  { user : option User.t;
    session : option Session.t;
    loading : bool;
    hospitalId : option string;
    isAuthenticated : bool }.

(** The state the store is created with. *)
Definition initialState : AuthState :=
  {| user := None; session := None; loading := true;
     hospitalId := None; isAuthenticated := false |}.

(** [partialize]: what the [persist] middleware keeps of the state. *)
Record Persisted : Type :=
  { persisted_user : option User.t;
    persisted_hospitalId : option string;
    persisted_isAuthenticated : bool }.

Definition partialize (state : AuthState) : Persisted :=
  {| persisted_user := user state;
     persisted_hospitalId := hospitalId state;
     persisted_isAuthenticated := isAuthenticated state |}.

(** The store with its entry of [localStorage] (key ['auth-storage']). *)
Record Store : Type :=
  { state : AuthState;
    storage : option Persisted }.

Definition initialStore : Store := {| state := initialState; storage := None |}.

(** *** The backend, as the store sees it *)

(** [signInWithPassword]'s answer, [{ data: { user, session }, error }]. *)
Record AuthTokenResponse : Type :=
  { data_user : option string;
    data_session : option Session.t;
    auth_error : option string }.

(** [.single()]: a row, or an error. *)
Inductive PostgrestSingleResponse (A : Type) : Type :=
| Success (data : A)
| Failure (message : string).

Arguments Success {A} data.
Arguments Failure {A} message.

(** [refreshSession]'s and [getSession]'s answer, [{ data: { session }, error }]. *)
Record SessionResponse : Type :=
  { response_session : option Session.t;
    response_error : option string }.

(** The profile [signUp] is called with. *)
Record UserData : Type :=
  { new_full_name : string;
    new_role : string;
    new_hospital_id : option string }.

Inductive Request : Type :=
| SignInWithPassword (email password : string)
| SignUp (email password : string) (userData : UserData)
| SignOut
| ResetPasswordForEmail (email : string)
| GetSession
| RefreshSession
| SelectUser (id : string)
| InsertUser (id : string) (userData : UserData)
| UpdateUser (id : string) (data : list (string * string))
| UpdateLastLogin (id : string) (last_login : string).

(** How the backend settles each call. *)
Record Backend : Type :=
  { auth_signIn : string -> string -> Settled AuthTokenResponse;
    auth_signUp : string -> string -> UserData -> Settled AuthTokenResponse;
    auth_signOut : Settled (option string);
    auth_resetPassword : string -> Settled (option string);
    auth_getSession : Settled SessionResponse;
    auth_refreshSession : Settled SessionResponse;
    users_select : string -> Settled (PostgrestSingleResponse User.t);
    users_insert : string -> UserData -> Settled PostgrestResponse;
    users_update : string -> list (string * string)
                 -> Settled (PostgrestSingleResponse User.t);
    users_update_last_login : string -> string -> Settled PostgrestResponse }.

(** *** Asynchronous code: state, a trace of what was done, exceptions *)

Inductive Event : Type :=
| Set_ (after : AuthState)
| Call (request : Request)
| ConsoleError (message : string)
| RemoveItem (key : string)
| LocationHref (href : string).

Record World : Type :=
  { store : Store;
    trace : list Event }.

Inductive Completion (A : Type) : Type :=
| Normal (value : A)
| Throw (message : string).

Arguments Normal {A} value.
Arguments Throw {A} message.

Definition Async (A : Type) : Type := World -> Completion A * World.

Definition ret {A : Type} (a : A) : Async A := fun w => (Normal a, w).

Definition bind {A B : Type} (m : Async A) (k : A -> Async B) : Async B :=
  fun w =>
    match m w with
    | (Normal a, w') => k a w'
    | (Throw message, w') => (Throw message, w')
    end.

Declare Scope async_scope.
Delimit Scope async_scope with async.
Bind Scope async_scope with Async.

Notation "x <- m ;; k" := (bind m (fun x => k))
  (at level 100, m at next level, right associativity) : async_scope.
Notation "m ;; k" := (bind m (fun _ => k))
  (at level 100, right associativity) : async_scope.

Local Open Scope async_scope.

(** [try { body } catch (error) { handler(error.message) }] *)
Definition try_catch {A : Type} (body : Async A) (handler : string -> Async A) : Async A :=
  fun w =>
    match body w with
    | (Normal a, w') => (Normal a, w')
    | (Throw message, w') => handler message w'
    end.

(** [try { body } finally { final }] *)
Definition try_finally {A : Type} (body : Async A) (final : Async unit) : Async A :=
  fun w =>
    match body w with
    | (c, w') =>
        match final w' with
        | (Normal _, w'') => (c, w'')
        | (Throw message, w'') => (Throw message, w'')
        end
    end.

Definition log (e : Event) : Async unit :=
  fun w => (Normal tt, {| store := store w; trace := trace w ++ [e] |}).

Definition get : Async AuthState := fun w => (Normal (state (store w)), w).

(** [set(partial)]: the state is updated and, the store being wrapped in
    [persist], the kept part is written to [localStorage] at once. *)
Definition set (update : AuthState -> AuthState) : Async unit :=
  fun w =>
    let after := update (state (store w)) in
    (Normal tt,
     {| store := {| state := after; storage := Some (partialize after) |};
        trace := trace w ++ [Set_ after] |}).

(** [await] of a backend call: a rejected promise throws. *)
Definition await {A : Type} (request : Request) (answer : Settled A) : Async A :=
  fun w =>
    let w' := {| store := store w; trace := trace w ++ [Call request] |} in
    match answer with
    | Resolved a => (Normal a, w')
    | Rejected message => (Throw message, w')
    end.

(** [localStorage.removeItem('auth-storage')] *)
Definition removeItem : Async unit :=
  fun w =>
    (Normal tt,
     {| store := {| state := state (store w); storage := None |};
        trace := trace w ++ [RemoveItem "auth-storage"] |}).

(** The partial objects handed to [set]. *)
Definition with_loading (b : bool) (s : AuthState) : AuthState :=
  {| user := user s; session := session s; loading := b;
     hospitalId := hospitalId s; isAuthenticated := isAuthenticated s |}.

Definition with_session (v : option Session.t) (s : AuthState) : AuthState :=
  {| user := user s; session := v; loading := loading s;
     hospitalId := hospitalId s; isAuthenticated := isAuthenticated s |}.

Definition with_user (v : option User.t) (s : AuthState) : AuthState :=
  {| user := v; session := session s; loading := loading s;
     hospitalId := hospitalId s; isAuthenticated := isAuthenticated s |}.

(** [hospital_id || null]: an empty id counts as none. *)
Definition or_null (v : option string) : option string :=
  match v with
  | Some h => if String.eqb h "" then None else Some h
  | None => None
  end.

(** *** The store's actions *)

Record Result : Type := { success : bool; error : option string }.

Definition ok : Result := {| success := true; error := None |}.
Definition failed (message : string) : Result :=
  {| success := false; error := Some message |}.

Definition signIn (be : Backend) (now : Z) (email password : string) : Async Result :=
  try_catch
    (set (with_loading true) ;;
     r <- await (SignInWithPassword email password)
                (auth_signIn be email password) ;;
     match auth_error r with
     | Some message => ret (failed message)
     | None =>
         match data_user r with
         | Some id =>
             p <- await (SelectUser id) (users_select be id) ;;
             match p with
             | Failure _ => ret (failed "Failed to fetch user profile")
             | Success userProfile =>
                 set (fun _ =>
                        {| user := Some userProfile;
                           session := data_session r;
                           hospitalId := User.hospital_id userProfile;
                           isAuthenticated := true;
                           loading := false |}) ;;
                 let last_login := JsDate.toISOString now in
                 await (UpdateLastLogin id last_login)
                       (users_update_last_login be id last_login) ;;
                 ret ok
             end
         | None => ret (failed "Authentication failed")
         end
     end)
    (fun message => set (with_loading false) ;; ret (failed message)).

Definition signUp (be : Backend) (email password : string) (userData : UserData)
    : Async Result :=
  try_catch
    (set (with_loading true) ;;
     r <- await (SignUp email password userData) (auth_signUp be email password userData) ;;
     match auth_error r with
     | Some message => ret (failed message)
     | None =>
         match data_user r with
         | Some id =>
             i <- await (InsertUser id userData) (users_insert be id userData) ;;
             match error_message i with
             | Some _ => ret (failed "Failed to create user profile")
             | None => ret ok
             end
         | None => ret (failed "Registration failed")
         end
     end)
    (fun message => set (with_loading false) ;; ret (failed message)).

(** [signOut]: the state is cleared after the backend call, inside the
    [try]; the [catch] only reports. *)
Definition signOut (be : Backend) : Async unit :=
  try_catch
    (await SignOut (auth_signOut be) ;;
     set (fun _ =>
            {| user := None; session := None; hospitalId := None;
               isAuthenticated := false; loading := false |}))
    (fun message => log (ConsoleError message)).

Definition resetPassword (be : Backend) (email : string) : Async Result :=
  try_catch
    (r <- await (ResetPasswordForEmail email) (auth_resetPassword be email) ;;
     match r with
     | Some message => ret (failed message)
     | None => ret ok
     end)
    (fun message => ret (failed message)).

Definition updateProfile (be : Backend) (data : list (string * string)) : Async Result :=
  try_catch
    (s <- get ;;
     match user s with
     | None => ret (failed "No user logged in")
     | Some u =>
         r <- await (UpdateUser (User.id u) data) (users_update be (User.id u) data) ;;
         match r with
         | Failure message => ret (failed message)
         | Success updatedUser => set (with_user (Some updatedUser)) ;; ret ok
         end
     end)
    (fun message => ret (failed message)).

Definition initialize (be : Backend) : Async unit :=
  try_finally
    (try_catch
       (set (with_loading true) ;;
        r <- await GetSession (auth_getSession be) ;;
        match response_session r with
        | Some s =>
            match Session.user s with
            | Some id =>
                p <- await (SelectUser id) (users_select be id) ;;
                match p with
                | Success userProfile =>
                    set (fun st =>
                           {| user := Some userProfile;
                              session := Some s;
                              hospitalId := User.hospital_id userProfile;
                              isAuthenticated := true;
                              loading := loading st |})
                | Failure _ => ret tt
                end
            | None => ret tt
            end
        | None => ret tt
        end)
       (fun message => log (ConsoleError message)))
    (set (with_loading false)).

(** [!!user]: a profile is an object, so it is truthy when present. *)
Definition setUser (u : option User.t) : Async unit :=
  set (fun s =>
         {| user := u;
            session := session s;
            loading := loading s;
            hospitalId := or_null (u ≫= User.hospital_id);
            isAuthenticated := bool_decide (is_Some u) |}).

Definition setSession (s : option Session.t) : Async unit := set (with_session s).

Definition setLoading (b : bool) : Async unit := set (with_loading b).

Inductive AuthChangeEvent : Type :=
| INITIAL_SESSION | SIGNED_IN | SIGNED_OUT | TOKEN_REFRESHED
| USER_UPDATED | PASSWORD_RECOVERY.

(** The identity of an event's session, [session?.user]. *)
Definition session_user (s : option Session.t) : option string := s ≫= Session.user.

(** The listener registered at the end of [auth.ts]. *)
Definition onAuthStateChange (be : Backend) (event : AuthChangeEvent)
    (s : option Session.t) : Async unit :=
  setLoading true ;;
  setSession s ;;
  match event, session_user s with
  | SIGNED_IN, Some id =>
      p <- await (SelectUser id) (users_select be id) ;;
      match p with
      | Success userProfile => setUser (Some userProfile)
      | Failure _ => ret tt
      end
  | SIGNED_OUT, _ => setUser None
  | _, _ => ret tt
  end ;;
  setLoading false.

(** Page load: the store is created anew and [persist] merges what it
    finds in [localStorage] over the initial state. The three fields of
    the merged state are those of the entry found, so the entry is the
    same whether or not the middleware writes it back. *)
Definition rehydrate (persisted : option Persisted) : AuthState :=
  match persisted with
  | Some p =>
      {| user := persisted_user p;
         session := session initialState;
         loading := loading initialState;
         hospitalId := persisted_hospitalId p;
         isAuthenticated := persisted_isAuthenticated p |}
  | None => initialState
  end.

Definition reload (st : Store) : Store :=
  {| state := rehydrate (storage st); storage := storage st |}.

End AuthStore.

(** *** The hook's functions ([useAuth]) *)
Module UseAuth.

Import AuthStore.
Local Open Scope async_scope.

(** The listener the hook subscribes. *)
Definition onAuthStateChange (be : Backend) (now : Z) (event : AuthChangeEvent)
    (s : option Session.t) : Async unit :=
  setLoading true ;;
  setSession s ;;
  try_finally
    (try_catch
       match event, session_user s with
       | SIGNED_IN, Some id =>
           p <- await (SelectUser id) (users_select be id) ;;
           match p with
           | Success userProfile =>
               setUser (Some userProfile) ;;
               let last_login := JsDate.toISOString now in
               await (UpdateLastLogin id last_login)
                     (users_update_last_login be id last_login) ;;
               ret tt
           | Failure message => log (ConsoleError message) ;; setUser None
           end
       | SIGNED_OUT, _ => setUser None
       | TOKEN_REFRESHED, Some id =>
           p <- await (SelectUser id) (users_select be id) ;;
           match p with
           | Success userProfile => setUser (Some userProfile)
           | Failure _ => ret tt
           end
       | _, _ => ret tt
       end
       (fun message => log (ConsoleError message) ;; setUser None))
    (setLoading false).

(** "Enhanced sign out": the store's [signOut], then the persisted entry
    is removed and the browser sent to the login page. *)
Definition signOut (be : Backend) : Async unit :=
  try_finally
    (try_catch
       (setLoading true ;;
        AuthStore.signOut be ;;
        removeItem ;;
        log (LocationHref "/login"))
       (fun message => log (ConsoleError message)))
    (setLoading false).

Definition refreshSession (be : Backend) : Async unit :=
  try_finally
    (try_catch
       (setLoading true ;;
        r <- await RefreshSession (auth_refreshSession be) ;;
        match response_error r with
        | Some message => log (ConsoleError message) ;; signOut be
        | None =>
            match response_session r with
            | Some s =>
                match Session.user s with
                | Some id =>
                    p <- await (SelectUser id) (users_select be id) ;;
                    match p with
                    | Success userProfile =>
                        setUser (Some userProfile) ;; setSession (Some s)
                    | Failure _ => ret tt
                    end
                | None => ret tt
                end
            | None => ret tt
            end
        end)
       (fun message => log (ConsoleError message) ;; signOut be))
    (setLoading false).

(** The periodic check: refresh when less than five minutes remain. *)
Definition refreshDue (now : Z) (s : Session.t) : bool :=
  let expiresAt := match Session.expires_at s with
                   | Some e => (e * 1000)%Z
                   | None => 0%Z
                   end in
  (expiresAt - now <? 5 * 60 * 1000)%Z.

End UseAuth.

(** ** The route guard ([ProtectedRoute.tsx]) *)
Module RouteGuard.

(** [requiredRole?: string | string[]] *)
Inductive RequiredRole : Type :=
| OneRole (role : string)
| Roles (roles : list string).

Record Props : Type :=
  { requiredRole : option RequiredRole;
    fallbackPath : string }.

(** What the component reads from [useAuth], [useLocation] and its own
    [sessionChecked] state. *)
Record Inputs : Type :=
  { user : option User.t;
    loading : bool;
    isAuthenticated : bool;
    hospitalId : option string;
    sessionChecked : bool;
    pathname : string }.

(** What the component returns. *)
Inductive Rendered : Type :=
| LoadingIndicator
| NavigateTo (to : string) (from : string)
| AccountDeactivated
| SetupRequired
| AccessDenied (roles : list string)
| Content.

(** [if (requiredRole)]: an empty string is falsy, an array never is. *)
Definition required (r : option RequiredRole) : option (list string) :=
  match r with
  | None => None
  | Some (OneRole role) => if String.eqb role "" then None else Some [role]
  | Some (Roles roles) => Some roles
  end.

Definition includes (roles : list string) (role : string) : bool :=
  existsb (String.eqb role) roles.

(** The second test is [!isAuthenticated || !user]: the redirect is taken
    when there is no user and when the flag is off. *)
Definition ProtectedRoute (props : Props) (i : Inputs) : Rendered :=
  if loading i || negb (sessionChecked i) then LoadingIndicator
  else
    match user i with
    | None => NavigateTo (fallbackPath props) (pathname i)
    | Some u =>
        if negb (isAuthenticated i) then NavigateTo (fallbackPath props) (pathname i)
        else if negb (User.is_active u) then AccountDeactivated
        else if negb (Consultation.truthy_string (hospitalId i)) then SetupRequired
        else
          match required (requiredRole props) with
          | Some roles =>
              if negb (includes roles (User.role u)) then AccessDenied roles
              else Content
          | None => Content
          end
    end.

(** The actions a rendered view offers, and whether rendering it navigates. *)
Inductive Action : Type := SignOutButton | GoBackButton.

Definition actions (r : Rendered) : list Action :=
  match r with
  | AccountDeactivated | SetupRequired => [SignOutButton]
  | AccessDenied _ => [GoBackButton]
  | _ => []
  end.

Definition navigates (r : Rendered) : bool :=
  match r with
  | NavigateTo _ _ => true
  | _ => false
  end.

End RouteGuard.

(** ** Role checks inside components ([usePermissions]) *)
Module Permissions.

Import RouteGuard.

(** [Array.isArray(role) ? role : [role]] *)
Definition roles_of (role : RequiredRole) : list string :=
  match role with
  | OneRole r => [r]
  | Roles rs => rs
  end.

Definition hasRole (user : option User.t) (role : RequiredRole) : bool :=
  match user with
  | None => false
  | Some u => includes (roles_of role) (User.role u)
  end.

Definition isAdmin (user : option User.t) : bool :=
  hasRole user (Roles ["admin"; "hospital_admin"]).
Definition isDoctor (user : option User.t) : bool := hasRole user (OneRole "doctor").
Definition isNurse (user : option User.t) : bool := hasRole user (OneRole "nurse").
Definition isReceptionist (user : option User.t) : bool :=
  hasRole user (OneRole "receptionist").

End Permissions.

(** ** The pages and their guards ([App.tsx]) *)
Module AppRoutes.

Import RouteGuard.

(** The [requiredRole] of the [ProtectedRoute] each page element is
    wrapped in, if it is wrapped in one. All of these routes are children
    of the route ["/"], whose element is a [ProtectedRoute] without role;
    each guard instance keeps its own [sessionChecked]. *)
Definition pageGuards : list (string * option RequiredRole) :=
  [("/dashboard", None);
   ("/patients", None);
   ("/appointments", None);
   ("/opd/register", None);
   ("/ipd/admission", None);
   ("/ipd/bed-board", None);
   ("/consultation/:appointmentId", None);
   ("/billing/opd", None);
   ("/billing/ipd/:ipdId", None);
   ("/doctors", Some (Roles ["admin"; "hospital_admin"]));
   ("/departments", Some (Roles ["admin"; "hospital_admin"]));
   ("/settings", Some (Roles ["admin"; "hospital_admin"]));
   ("/settings/offline", Some (Roles ["admin"; "hospital_admin"]));
   ("/settings/compliance", Some (Roles ["admin"; "hospital_admin"]));
   ("/settings/audit-logs", Some (Roles ["admin"; "hospital_admin"]));
   ("/billing", None);
   ("/inventory", Some (Roles ["admin"; "hospital_admin"; "pharmacist"]));
   ("/reports", None)].

Fixpoint guardOf (route : string) (table : list (string * option RequiredRole))
    : option (option RequiredRole) :=
  match table with
  | [] => None
  | (r, g) :: rest => if String.eqb r route then Some g else guardOf route rest
  end.

(** What a guard reads: the store's values as [useAuth] returns them, with
    [loading || !isInitialized] for [loading], and its own [sessionChecked]. *)
Definition useAuth (s : AuthStore.AuthState) (isInitialized sessionChecked : bool)
    (pathname : string) : Inputs :=
  {| user := AuthStore.user s;
     loading := AuthStore.loading s || negb isInitialized;
     isAuthenticated := AuthStore.isAuthenticated s;
     hospitalId := AuthStore.hospitalId s;
     sessionChecked := sessionChecked;
     pathname := pathname |}.

(** The elements of the two public routes. *)
Inductive PublicElement : Type :=
| LoginPage | HospitalRegisterPage | NavigateToDashboard.

Definition loginElement (isAuthenticated : bool) : PublicElement :=
  if isAuthenticated then NavigateToDashboard else LoginPage.

Definition registerElement (isAuthenticated : bool) : PublicElement :=
  if isAuthenticated then NavigateToDashboard else HospitalRegisterPage.

End AppRoutes.

(** ** The sidebar layout ([SidebarLayout], the file with [navigationItems]) *)
Module SidebarLayout.

Import AuthStore.

Record NavigationItem : Type :=
  { id : string;
    label : string;
    path : string;
    badge : option nat;
    requiredRole : option (list string) }.

Definition navigationItems : list NavigationItem :=
  [{| id := "dashboard"; label := "Dashboard"; path := "/dashboard";
      badge := None; requiredRole := None |};
   {| id := "patients"; label := "Patients"; path := "/patients";
      badge := None; requiredRole := None |};
   {| id := "appointments"; label := "Appointments"; path := "/appointments";
      badge := Some 5; requiredRole := None |};
   {| id := "doctors"; label := "Doctors"; path := "/doctors";
      badge := None; requiredRole := Some ["admin"; "hospital_admin"] |};
   {| id := "departments"; label := "Departments"; path := "/departments";
      badge := None; requiredRole := Some ["admin"; "hospital_admin"] |};
   {| id := "billing"; label := "Billing"; path := "/billing";
      badge := None; requiredRole := None |};
   {| id := "inventory"; label := "Inventory"; path := "/inventory";
      badge := None;
      requiredRole := Some ["admin"; "hospital_admin"; "pharmacist"] |};
   {| id := "reports"; label := "Reports"; path := "/reports";
      badge := None; requiredRole := None |};
   {| id := "settings"; label := "Settings"; path := "/settings";
      badge := None; requiredRole := Some ["admin"; "hospital_admin"] |}].

(** The filter's callback: shown without a requirement; otherwise only
    to a user whose role is among the required ones. *)
Definition shown (user : option User.t) (item : NavigationItem) : bool :=
  match requiredRole item with
  | None => true
  | Some roles =>
      match user with
      | None => false
      | Some u => RouteGuard.includes roles (User.role u)
      end
  end.

Definition filteredNavigationItems (user : option User.t) : list NavigationItem :=
  List.filter (shown user) navigationItems.

(** [location.pathname === path || location.pathname.startsWith(path + '/')] *)
Definition isActiveRoute (pathname path : string) : bool :=
  String.eqb pathname path || String.prefix (path +:+ "/") pathname.

Record Toast : Type := { title : string; description : string; variant : string }.

(** [handleLogout]: the hook's [signOut] is awaited inside a [try]; the
    toast depends on whether it threw. *)
Definition handleLogout (be : Backend) : Async Toast :=
  try_catch
    (bind (UseAuth.signOut be)
       (fun _ =>
          ret {| title := "Signed Out";
                 description := "You have been successfully signed out.";
                 variant := "default" |}))
    (fun _ =>
       ret {| title := "Sign Out Error";
              description := "Failed to sign out. Please try again.";
              variant := "destructive" |}).

End SidebarLayout.

(** ** The searchable pick-lists of the consultation page *)
Module PickLists.

Import Consultation.

(** [hay.includes(needle)]: [needle] occurs somewhere in [hay]. *)
Fixpoint includes (hay needle : string) : bool :=
  String.prefix needle hay
  || match hay with
     | EmptyString => false
     | String _ rest => includes rest needle
     end.

Definition mockSymptoms : list string :=
  ["Fever"; "Headache"; "Cough"; "Cold"; "Body ache"; "Nausea"; "Vomiting";
   "Diarrhea"; "Constipation"; "Chest pain"; "Shortness of breath"; "Fatigue";
   "Dizziness"; "Abdominal pain"; "Back pain"; "Joint pain"; "Skin rash"].

Definition mockDiagnoses : list (string * string) :=
  [("J00", "Acute nasopharyngitis [common cold]");
   ("J06.9", "Acute upper respiratory infection, unspecified");
   ("K59.00", "Constipation, unspecified");
   ("R50.9", "Fever, unspecified");
   ("R51", "Headache");
   ("M79.3", "Panniculitis, unspecified");
   ("K30", "Functional dyspepsia")].

Record MockMedication : Type :=
  { name : string; type : string; commonDoses : list string }.

Definition mockMedications : list MockMedication :=
  [{| name := "Paracetamol"; type := "Tablet"; commonDoses := ["500mg"; "650mg"] |};
   {| name := "Ibuprofen"; type := "Tablet"; commonDoses := ["200mg"; "400mg"] |};
   {| name := "Amoxicillin"; type := "Capsule"; commonDoses := ["250mg"; "500mg"] |};
   {| name := "Cetirizine"; type := "Tablet"; commonDoses := ["5mg"; "10mg"] |};
   {| name := "Omeprazole"; type := "Capsule"; commonDoses := ["20mg"; "40mg"] |}].

Definition mockLabTests : list string :=
  ["Complete Blood Count (CBC)"; "Blood Sugar (Fasting)"; "Blood Sugar (Random)";
   "Lipid Profile"; "Liver Function Test"; "Kidney Function Test";
   "Thyroid Profile"; "Urine Routine"; "ESR"; "CRP"; "HbA1c"; "Vitamin D";
   "Vitamin B12"].

Definition mockRadiologyTests : list string :=
  ["Chest X-Ray"; "Abdominal X-Ray"; "ECG"; "Echo"; "USG Abdomen"; "USG Pelvis";
   "CT Scan Head"; "CT Scan Chest"; "MRI Brain"; "MRI Spine"].

Section Search.

(** [String.prototype.toLowerCase], a built-in the page is generic in. *)
Variable toLowerCase : string -> string.

(** [entry.toLowerCase().includes(search.toLowerCase())] *)
Definition matches (search entry : string) : bool :=
  includes (toLowerCase entry) (toLowerCase search).

(** The list under a search box; [None] when the box is empty and no list
    is rendered ([{symptomSearch && ( ... )}]). *)
Definition dropdown {A : Type} (search : string) (hit : A -> bool)
    (catalogue : list A) : option (list A) :=
  if String.eqb search "" then None else Some (List.filter hit catalogue).

Definition symptomDropdown (p : Page) : option (list string) :=
  dropdown (symptomSearch p) (matches (symptomSearch p)) mockSymptoms.

Definition diagnosisDropdown (p : Page) : option (list (string * string)) :=
  dropdown (diagnosisSearch p)
    (fun d => matches (diagnosisSearch p) (snd d) || matches (diagnosisSearch p) (fst d))
    mockDiagnoses.

Definition labDropdown (p : Page) : option (list string) :=
  dropdown (labSearch p) (matches (labSearch p)) mockLabTests.

Definition radiologyDropdown (p : Page) : option (list string) :=
  dropdown (radiologySearch p) (matches (radiologySearch p)) mockRadiologyTests.

Definition medicationDropdown (p : Page) : option (list MockMedication) :=
  dropdown (medicationSearch p) (fun med => matches (medicationSearch p) (name med))
    mockMedications.

End Search.

(** [commonDoses[0]]: [undefined] for an entry without doses. *)
Definition firstDose (med : MockMedication) : option string := head (commonDoses med).

Definition setMedicationSearch (s : string) (p : Page) : Page :=
  {| form := form p; symptomSearch := symptomSearch p;
     diagnosisSearch := diagnosisSearch p; medicationSearch := s;
     labSearch := labSearch p; radiologySearch := radiologySearch p |}.

(** The [onClick] of an entry of the medication list. An entry without
    doses would put [undefined] where the form has a string: [None]. *)
Definition pickMedication (med : MockMedication) (p : Page) : option Page :=
  match firstDose med with
  | Some dose =>
      Some (setMedicationSearch ""
              (appendMedication
                 {| Medication.type := type med;
                    Medication.name := name med;
                    Medication.dose := dose;
                    Medication.frequency := "BD";
                    Medication.duration := "5 days";
                    Medication.quantity := "10";
                    Medication.instruction := "After food" |} p))
  | None => None
  end.

End PickLists.

(** ** The dashboard's date window ([loadStats]) *)
Module Dashboard.

Import JsDate.
Local Open Scope Z_scope.


(** [new Date(year, month, date)]: midnight of that day in local time; a
    year from 0 to 99 counts from 1900. *)
Definition Date_local (tza year month date : Z) : Z :=
  let yr := if (0 <=? year) && (year <=? 99) then 1900 + year else year in
  UTC tza (MakeDate (MakeDay yr month date) 0).

(** [new Date().toISOString().split('T')[0]] *)
Definition today (now : Z) : string := split_head "T" (toISOString now).

(** [new Date(new Date().getFullYear(), new Date().getMonth(), 1)
      .toISOString().split('T')[0]]; the year and the month are read from
    two [new Date()], at [nowYear] and [nowMonth]. *)
Definition startOfMonth (tza nowYear nowMonth : Z) : string :=
  split_head "T"
    (toISOString (Date_local tza (getFullYear tza nowYear) (getMonth tza nowMonth) 1)).




End Dashboard.

(* ===================================================================== *)
(** * Part II: what the specification says, and sample inputs             *)
(* ===================================================================== *)

(** ** Derived vitals, as the specification writes them *)
Module VitalsSpec.

Import JsNumber.

(** The specification's formulas: [x] rounded to [d] decimals, the body
    mass index and the body surface area. *)
Definition rounded (d : nat) (x : float) : float :=
  let scale := of_Z (10 ^ Z.of_nat d) in
  (Math_round (x * scale) / scale)%float.

Definition bodyMassIndex (w h : float) : float :=
  let height_m := (h / 100)%float in
  rounded 1 (w / (height_m * height_m))%float.

Definition bodySurfaceArea (w h : float) : float :=
  rounded 2 (PrimFloat.sqrt (w * h / 3600)%float).

End VitalsSpec.

(** ** The declared ranges of the vitals *)
Module SubmitSpec.

Import Consultation.

(** The ranges the specification declares, each with the form's value. *)
Definition declared_ranges (f : ConsultationForm)
    : list (string * float * float * option float) :=
  [("weight", 0%float, 500%float, weight f);
   ("height", 0%float, 300%float, height f);
   ("systolic", 50%float, 300%float, systolic f);
   ("diastolic", 30%float, 200%float, diastolic f);
   ("pulse", 30%float, 200%float, pulse f);
   ("temperature", 90%float, 110%float, temperature f);
   ("spo2", 70%float, 100%float, spo2 f)].

(** [x] lies outside [[lo, hi]]. *)
Definition outside (lo hi x : float) : Prop :=
  (x <? lo)%float = true \/ (hi <? x)%float = true.

End SubmitSpec.

(** ** The session store as a transition system *)
Module StoreSpec.

Import AuthStore.

(** The store an asynchronous function leaves behind. *)
Definition exec {A : Type} (m : Async A) (st : Store) : Store :=
  store (snd (m {| store := st; trace := [] |})).

Inductive Operation : Type :=
| DoSignIn (be : Backend) (now : Z) (email password : string)
| DoSignUp (be : Backend) (email password : string) (userData : UserData)
| DoSignOut (be : Backend)
| DoResetPassword (be : Backend) (email : string)
| DoUpdateProfile (be : Backend) (data : list (string * string))
| DoInitialize (be : Backend)
| DoSetUser (u : option User.t)
| DoSetSession (s : option Session.t)
| DoSetLoading (b : bool)
| DoStoreListener (be : Backend) (event : AuthChangeEvent) (s : option Session.t)
| DoHookListener (be : Backend) (now : Z) (event : AuthChangeEvent)
    (s : option Session.t)
| DoHookSignOut (be : Backend)
| DoRefreshSession (be : Backend)
| DoReload.

Definition run (op : Operation) (st : Store) : Store :=
  match op with
  | DoSignIn be now email password => exec (signIn be now email password) st
  | DoSignUp be email password userData => exec (signUp be email password userData) st
  | DoSignOut be => exec (signOut be) st
  | DoResetPassword be email => exec (resetPassword be email) st
  | DoUpdateProfile be data => exec (updateProfile be data) st
  | DoInitialize be => exec (initialize be) st
  | DoSetUser u => exec (setUser u) st
  | DoSetSession s => exec (setSession s) st
  | DoSetLoading b => exec (setLoading b) st
  | DoStoreListener be event s => exec (onAuthStateChange be event s) st
  | DoHookListener be now event s => exec (UseAuth.onAuthStateChange be now event s) st
  | DoHookSignOut be => exec (UseAuth.signOut be) st
  | DoRefreshSession be => exec (UseAuth.refreshSession be) st
  | DoReload => reload st
  end.

(** The stores reached from a first visit by any sequence of operations,
    each run to completion. *)
Inductive reachable : Store -> Prop :=
| reachable_initial : reachable initialStore
| reachable_run (op : Operation) (st : Store) :
    reachable st -> reachable (run op st).

(** The specification's condition: a session whose token has not expired
    at [now] (milliseconds), read as the hook reads [expires_at]. *)
Definition token_valid (now : Z) (s : AuthState) : bool :=
  match session s with
  | Some x =>
      match Session.expires_at x with
      | Some e => (now <? e * 1000)%Z
      | None => false
      end
  | None => false
  end.

(** What the store does keep: the flag says whether a profile is there. *)
Definition consistent (s : AuthState) : Prop :=
  isAuthenticated s = bool_decide (is_Some (user s)).

Definition consistent_store (st : Store) : Prop :=
  consistent (state st)
  /\ match storage st with
     | Some p => persisted_isAuthenticated p = bool_decide (is_Some (persisted_user p))
     | None => True
     end.

(** An asynchronous function keeps the store consistent. *)
Definition preserves {A : Type} (m : Async A) : Prop :=
  forall w, consistent_store (store w) -> consistent_store (store (snd (m w))).

End StoreSpec.

(** ** The route guard as a list of gates *)
Module GuardSpec.

Import RouteGuard.

(** The gates in the order the component tests them. *)
Inductive Gate : Type :=
| LoadingGate | AuthenticationGate | ActiveGate | HospitalGate | RoleGate.

(** Does the gate let the visitor through? *)
Definition passes (props : Props) (i : Inputs) (g : Gate) : bool :=
  match g with
  | LoadingGate => negb (loading i) && sessionChecked i
  | AuthenticationGate => isAuthenticated i && bool_decide (is_Some (user i))
  | ActiveGate =>
      match user i with
      | Some u => User.is_active u
      | None => false
      end
  | HospitalGate => Consultation.truthy_string (hospitalId i)
  | RoleGate =>
      match required (requiredRole props), user i with
      | Some roles, Some u => includes roles (User.role u)
      | Some _, None => false
      | None, _ => true
      end
  end.

(** What a failing gate renders. *)
Definition refusal (props : Props) (i : Inputs) (g : Gate) : Rendered :=
  match g with
  | LoadingGate => LoadingIndicator
  | AuthenticationGate => NavigateTo (fallbackPath props) (pathname i)
  | ActiveGate => AccountDeactivated
  | HospitalGate => SetupRequired
  | RoleGate =>
      match required (requiredRole props) with
      | Some roles => AccessDenied roles
      | None => Content
      end
  end.

(** The gates in their fixed order, stopping at the first that fails. *)
Fixpoint first_failing (props : Props) (i : Inputs) (gates : list Gate) : Rendered :=
  match gates with
  | [] => Content
  | g :: rest =>
      if passes props i g then first_failing props i rest else refusal props i g
  end.

Definition gate_order : list Gate :=
  [LoadingGate; AuthenticationGate; ActiveGate; HospitalGate; RoleGate].

End GuardSpec.

(** ** Sample inputs *)
Module Samples.

Section Forms.
Import Consultation.

Definition form_70_175 : ConsultationForm :=
  {| weight := Some 70%float; height := Some 175%float;
     bmi := None; bsa := None;
     systolic := Some 120%float; diastolic := Some 80%float; pulse := None;
     temperature := None; spo2 := None;
     symptoms := []; diagnosis := []; medications := [];
     investigations := []; advice := [];
     followUpDate := None; followUpDuration := None;
     clinicalNotes := None; treatmentPlan := None |}.

Definition heavy_form : ConsultationForm :=
  {| weight := Some 1000%float; height := Some 175%float;
     bmi := None; bsa := None;
     systolic := Some 120%float; diastolic := Some 80%float; pulse := None;
     temperature := None; spo2 := None;
     symptoms := []; diagnosis := []; medications := [];
     investigations := []; advice := [];
     followUpDate := None; followUpDuration := None;
     clinicalNotes := None; treatmentPlan := None |}.

Definition page_of (f : ConsultationForm) : Page :=
  {| form := f; symptomSearch := ""; diagnosisSearch := "";
     medicationSearch := ""; labSearch := ""; radiologySearch := "" |}.

Definition complete_context : Context :=
  {| appointmentId := Some "appointment-1";
     hospitalId := Some "hospital-1";
     user := true |}.

Definition accepting : Backend :=
  fun _ _ => Resolved {| error_message := None |}.

End Forms.

(** India Standard Time, +05:30, in milliseconds. *)
Definition IST : Z := 330 * JsDate.msPerMinute.

(** 1 March 2024, 01:00 in the morning in India: 29 February, 19:30 UTC. *)
Definition early_morning : Z := JsDate.utc 2024 2 29 19 30.

Section Sessions.
Import AuthStore StoreSpec.

Definition nurse : User.t :=
  {| User.id := "user-1";
     User.email := "nurse@example.org";
     User.full_name := "A. Nurse";
     User.role := "nurse";
     User.hospital_id := Some "hospital-1";
     User.is_active := true |}.

(** A session that expires 1000 seconds after the epoch. *)
Definition token : Session.t :=
  {| Session.access_token := "token";
     Session.expires_at := Some 1000%Z;
     Session.user := Some "user-1" |}.

Definition written : Settled PostgrestResponse :=
  Resolved {| error_message := None |}.

(** A backend that knows the nurse; how it settles the sign-out call and
    the last-login write is left open. *)
Definition backend (sign_out : Settled (option string))
    (last_login : Settled PostgrestResponse) : Backend :=
  {| auth_signIn := fun _ _ =>
       Resolved {| data_user := Some "user-1"; data_session := Some token;
                   auth_error := None |};
     auth_signUp := fun _ _ _ => Rejected "not used";
     auth_signOut := sign_out;
     auth_resetPassword := fun _ => Resolved None;
     auth_getSession :=
       Resolved {| response_session := Some token; response_error := None |};
     auth_refreshSession :=
       Resolved {| response_session := Some token; response_error := None |};
     users_select := fun _ => Resolved (Success nurse);
     users_insert := fun _ _ => written;
     users_update := fun _ _ => Resolved (Success nurse);
     users_update_last_login := fun _ _ => last_login |}.

Definition signed_in : Store :=
  run (DoSignIn (backend (Resolved None) written) 0 "nurse@example.org" "secret")
    initialStore.

Definition cleared : AuthState :=
  {| user := None; session := None; hospitalId := None;
     isAuthenticated := false; loading := false |}.

Definition first_visit : World := {| store := initialStore; trace := [] |}.


End Sessions.

Section Visits.
Import RouteGuard.

Definition admin_only : Props :=
  {| requiredRole := Some (OneRole "admin"); fallbackPath := "/login" |}.

Definition nurse_visit : Inputs :=
  {| user := Some nurse;
     loading := false;
     isAuthenticated := true;
     hospitalId := Some "hospital-1";
     sessionChecked := true;
     pathname := "/doctors" |}.

End Visits.

End Samples.

(** ** Accepted forms, as ranges *)
Module FormSpec.

Import JsNumber Consultation.

(** The value is absent, or a number from [lo] to [hi], both included. *)
Definition in_range (lo hi : float) (v : option float) : Prop :=
  match v with
  | None => True
  | Some x => (lo <=? x)%float = true /\ (x <=? hi)%float = true
  end.

(** The value is absent, or a number (not NaN). *)
Definition a_number (v : option float) : Prop :=
  match v with
  | None => True
  | Some x => isNaN x = false
  end.

(** The page has what [onSubmit] asks for in its first line. *)
Definition complete (ctx : Context) : bool :=
  truthy_string (appointmentId ctx) && truthy_string (hospitalId ctx) && user ctx.

(** The fields of the form other than the two derived vitals. *)
Definition entered (f : ConsultationForm) :=
  (weight f, height f, systolic f, diastolic f, pulse f, temperature f, spo2 f,
   symptoms f, diagnosis f, medications f, investigations f, advice f,
   followUpDate f, followUpDuration f, clinicalNotes f, treatmentPlan f).

(** What [onSubmit] reads of the form: of a diagnosis only its name; the
    follow-up label and the treatment plan not at all. *)
Definition saved (f : ConsultationForm) :=
  (weight f, height f, bmi f, bsa f, systolic f, diastolic f, pulse f,
   temperature f, spo2 f, symptoms f, map Diagnosis.name (diagnosis f),
   medications f, investigations f, advice f, followUpDate f, clinicalNotes f).

End FormSpec.

(** ** Search results, as substrings *)
Module SearchSpec.

(** [needle] occurs in [hay]. *)
Definition contains (hay needle : string) : Prop :=
  exists before after, hay = before +:+ needle +:+ after.

(** What a search box shows: nothing while it is empty; otherwise the
    entries of the catalogue that are hits, in the catalogue's order. *)
Definition lists {A : Type} (shown : option (list A)) (search : string)
    (catalogue : list A) (hit : A -> Prop) : Prop :=
  match shown with
  | None => search = ""
  | Some results =>
      search <> ""
      /\ results `sublist_of` catalogue
      /\ forall entry, In entry results <-> In entry catalogue /\ hit entry
  end.

End SearchSpec.

(** ** The persisted entry *)
Module PersistSpec.

Import AuthStore.

(** The entry of [localStorage], when there is one, is what [partialize]
    keeps of the current state. *)
Definition in_sync (st : Store) : Prop :=
  match storage st with
  | Some p => p = partialize (state st)
  | None => True
  end.

(** An asynchronous function keeps the entry in step with the state. *)
Definition keeps_in_sync {A : Type} (m : Async A) : Prop :=
  forall w, in_sync (store w) -> in_sync (store (snd (m w))).

End PersistSpec.

(** ** More sample inputs *)
Module MoreSamples.

Import AuthStore Samples.

(** A backend that refuses the credentials. *)
Definition wrong_password : Backend :=
  {| auth_signIn := fun _ _ =>
       Resolved {| data_user := None; data_session := None;
                   auth_error := Some "Invalid login credentials" |};
     auth_signUp := auth_signUp (backend (Resolved None) written);
     auth_signOut := Resolved None;
     auth_resetPassword := fun _ => Resolved None;
     auth_getSession :=
       Resolved {| response_session := None; response_error := None |};
     auth_refreshSession :=
       Resolved {| response_session := None; response_error := None |};
     users_select := fun _ => Resolved (Failure "no rows");
     users_insert := fun _ _ => written;
     users_update := fun _ _ => Resolved (Failure "no rows");
     users_update_last_login := fun _ _ => written |}.

(** A backend that knows the nurse's session but fails to deliver her
    profile. *)
Definition profile_unreachable : Backend :=
  {| auth_signIn := auth_signIn (backend (Resolved None) written);
     auth_signUp := auth_signUp (backend (Resolved None) written);
     auth_signOut := Resolved None;
     auth_resetPassword := fun _ => Resolved None;
     auth_getSession := auth_getSession (backend (Resolved None) written);
     auth_refreshSession := auth_refreshSession (backend (Resolved None) written);
     users_select := fun _ => Rejected "Failed to fetch";
     users_insert := fun _ _ => written;
     users_update := fun _ _ => Rejected "Failed to fetch";
     users_update_last_login := fun _ _ => written |}.

End MoreSamples.

(* ===================================================================== *)
(** * Part III: properties                                                *)
(* ===================================================================== *)

(** ** Numbers: truthiness of positive values *)
Section NumberFacts.

Import JsNumber.

Lemma ToBoolean_classify (x : float) :
  ToBoolean x = truthy_class (SF64classify (Prim2SF x)).
Proof. unfold ToBoolean. rewrite FloatAxioms.classify_spec. reflexivity. Qed.

Lemma finite_truthy_class (s : bool) (m : positive) (e : Z) :
  truthy_class (SF64classify (S754_finite s m e)) = true.
Proof.
  unfold SF64classify, SFclassify.
  destruct s; destruct (Z.pos (digits2_pos m) =? prec)%Z; reflexivity.
Qed.


(** A number that is not NaN and not below a positive bound is truthy. *)
Lemma at_least_ToBoolean (lo x : float) :
  (0 <? lo)%float = true -> isNaN x = false -> (x <? lo)%float = false ->
  ToBoolean x = true.
Proof.
  intros Hlo Hnan Hlt. rewrite FloatAxioms.ltb_spec in Hlo, Hlt. rewrite ToBoolean_classify.
  unfold isNaN in Hnan. rewrite FloatAxioms.classify_spec in Hnan.
  change (Prim2SF 0) with (S754_zero false) in Hlo.
  destruct (Prim2SF x) as [s|s| |s m e].
  - exfalso.
    destruct (Prim2SF lo) as [t|t| |t m e]; try discriminate Hlo;
      destruct t; discriminate.
  - destruct s; reflexivity.
  - discriminate Hnan.
  - apply finite_truthy_class.
Qed.

End NumberFacts.

(** ** The consultation form *)
Module ConsultationFacts.

Import JsNumber Consultation VitalsSpec Samples.

(** *** Derived vitals *)

Example bodyMassIndex_70_175 : bodyMassIndex 70 175 = (229 / 10)%float.
Proof. vm_compute. reflexivity. Qed.

Example bodySurfaceArea_70_175 : bodySurfaceArea 70 175 = (184 / 100)%float.
Proof. vm_compute. reflexivity. Qed.



(** No-op when either input is absent. *)
Lemma recompute_absent (f : ConsultationForm) :
  weight f = None \/ height f = None -> recomputeDerivedVitals f = f.
Proof.
  intros [H|H]; unfold recomputeDerivedVitals; rewrite H;
    [reflexivity | destruct (weight f); reflexivity].
Qed.



(** *** Field arrays *)

Lemma remove_length {A : Type} (index : nat) (fields : list A) :
  index < length fields -> length (remove index fields) = length fields - 1.
Proof.
  intros H. unfold remove. rewrite length_app, length_take, length_drop. lia.
Qed.

(** What is left after [remove(index)]: the entries before [index] where
    they were, the entries after it one place down. *)
Lemma remove_lookup {A : Type} (index : nat) (fields : list A) (k : nat) :
  remove index fields !! k
  = if decide (k < index) then fields !! k else fields !! S k.
Proof.
  unfold remove. destruct (decide (index <= length fields)) as [Hle|Hgt].
  - case_decide as Hk.
    + rewrite lookup_app_l by (rewrite length_take; lia).
      apply lookup_take_lt. exact Hk.
    + rewrite lookup_app_r by (rewrite length_take; lia).
      rewrite length_take, lookup_drop. f_equal. lia.
  - rewrite take_ge, drop_ge by lia. rewrite app_nil_r.
    case_decide as Hk; [reflexivity|].
    rewrite !lookup_ge_None_2 by lia. reflexivity.
Qed.

Lemma remove_sublist {A : Type} (index : nat) (fields : list A) :
  remove index fields `sublist_of` fields.
Proof.
  unfold remove. rewrite <- (take_drop index fields) at 3.
  apply sublist_app; [reflexivity|].
  rewrite <- (Nat.add_1_r index), <- drop_drop. apply sublist_drop.
Qed.

Lemma remove_append {A : Type} (fields : list A) (value : A) :
  remove (length fields) (append fields value) = fields.
Proof.
  unfold remove, append.
  rewrite take_app_length, drop_app_ge by lia.
  replace (S (length fields) - length fields) with 1 by lia.
  cbn. apply app_nil_r.
Qed.

(** C7. Adding a medication and removing it again by its position gives
    back the medication list as it was (length and order); and in any
    section [remove] keeps the other entries in their order: those before
    the removed position stay in place, those after it move up by one. *)
Theorem medication_add_remove_stable_order :
  (forall p : Page,
     medications (form (removeMedication (length (medications (form p)))
                          (addMedication p)))
     = medications (form p))
  /\ (forall (A : Type) (fields : list A) (value : A),
        remove (length fields) (append fields value) = fields)
  /\ (forall (A : Type) (index : nat) (fields : list A),
        remove index fields `sublist_of` fields
        /\ forall k : nat,
             remove index fields !! k
             = if decide (k < index) then fields !! k else fields !! S k).
Proof.
  split; [|split].
  - intros p. cbn. apply remove_append.
  - intros A fields value. apply remove_append.
  - intros A index fields. split.
    + apply remove_sublist.
    + intros k. apply remove_lookup.
Qed.

(** C10. The add functions fill in fixed defaults: a symptom is added
    with severity "Mild" and duration "1 day", a diagnosis with type
    primary, a lab or radiology investigation with urgency "Routine" and
    empty instructions; each entry goes to the end of its list. *)
Theorem add_defaults (p : Page) :
  (forall symptomName : string,
     symptoms (form (addSymptom symptomName p))
     = symptoms (form p)
       ++ [{| Symptom.name := symptomName; Symptom.severity := "Mild";
              Symptom.duration := "1 day" |}])
  /\ (forall code name : string,
        diagnosis (form (addDiagnosis code name p))
        = diagnosis (form p)
          ++ [{| Diagnosis.code := code; Diagnosis.name := name;
                 Diagnosis.type := Diagnosis.primary |}])
  /\ (forall testName : string,
        investigations (form (addLabInvestigation testName p))
        = investigations (form p)
          ++ [{| Investigation.type := Investigation.lab;
                 Investigation.name := testName;
                 Investigation.urgency := "Routine";
                 Investigation.instructions := "" |}])
  /\ (forall testName : string,
        investigations (form (addRadiologyInvestigation testName p))
        = investigations (form p)
          ++ [{| Investigation.type := Investigation.radiology;
                 Investigation.name := testName;
                 Investigation.urgency := "Routine";
                 Investigation.instructions := "" |}]).
Proof.
  repeat split; intros; reflexivity.
Qed.

End ConsultationFacts.

(** ** Saving a consultation *)
Module SubmitFacts.

Import JsNumber Consultation SubmitSpec Samples.

Lemma outside_reported (field : string) (lo hi x : float) :
  outside lo hi x -> number_min_max_optional field lo hi (Some x) <> [].
Proof.
  intros H. unfold number_min_max_optional.
  destruct (isNaN x); [discriminate|].
  destruct H as [H|H]; rewrite H.
  - discriminate.
  - destruct (x <? lo)%float; discriminate.
Qed.

Lemma declared_range_checked (f : ConsultationForm)
    (field : string) (lo hi x : float) :
  In (field, lo, hi, Some x) (declared_ranges f) -> outside lo hi x ->
  issues f <> [].
Proof.
  intros Hin Hout Hnil. unfold issues in Hnil.
  repeat (apply app_nil in Hnil as [? Hnil]).
  unfold declared_ranges in Hin. cbn [In] in Hin.
  repeat (destruct Hin as [Hin|Hin];
          [ injection Hin as <- <- <- Hv;
            eapply outside_reported; [exact Hout|];
            rewrite <- Hv; eassumption
          | ]).
  exact Hin.
Qed.

Lemma invalid_not_submitted (ctx : Context) (now : Z) (backend : Backend) (p : Page) :
  issues (form p) <> [] ->
  exists errors,
    errors <> [] /\ handleSubmit ctx now backend p = (errors, []).
Proof.
  intros H. unfold handleSubmit, consultationSchema.
  destruct (issues (form p)) as [|e errors]; [contradiction|].
  exists (e :: errors). split; [discriminate | reflexivity].
Qed.

(** C2. A form whose weight is 1000, or with any vital outside its
    declared range, is refused at submit: the resolver reports issues,
    [onSubmit] is not called, and no update is sent to the backend. *)
Theorem out_of_range_vitals_not_saved
    (ctx : Context) (now : Z) (backend : Backend) (p : Page) :
  (weight (form p) = Some 1000%float
   \/ exists field lo hi x,
        In (field, lo, hi, Some x) (declared_ranges (form p)) /\ outside lo hi x) ->
  exists errors,
    errors <> []
    /\ handleSubmit ctx now backend p = (errors, [])
    /\ updates (snd (handleSubmit ctx now backend p)) = [].
Proof.
  intros H.
  assert (Hissues : issues (form p) <> []).
  { destruct H as [Hw | (field & lo & hi & x & Hin & Hout)].
    - apply (declared_range_checked _ "weight" 0 500 1000).
      + left. rewrite Hw. reflexivity.
      + right. reflexivity.
    - eapply declared_range_checked; eassumption. }
  destruct (invalid_not_submitted ctx now backend p Hissues) as (errors & Hne & E).
  exists errors. rewrite E. repeat split; assumption.
Qed.

Lemma out_of_range_witness :
  exists errors,
    errors <> []
    /\ handleSubmit complete_context 0 accepting (page_of heavy_form) = (errors, [])
    /\ updates (snd (handleSubmit complete_context 0 accepting (page_of heavy_form))) = [].
Proof.
  apply (out_of_range_vitals_not_saved complete_context 0 accepting (page_of heavy_form)).
  left. reflexivity.
Defined.

(** *** The blood pressure string *)

Lemma in_range_ToBoolean (field : string) (lo hi x : float) :
  (0 <? lo)%float = true ->
  number_min_max_optional field lo hi (Some x) = [] -> ToBoolean x = true.
Proof.
  intros Hlo H. unfold number_min_max_optional in H.
  destruct (isNaN x) eqn:Hnan; [discriminate|].
  destruct (x <? lo)%float eqn:Hlt; [discriminate|].
  exact (at_least_ToBoolean lo x Hlo Hnan Hlt).
Qed.

Lemma valid_pressure_truthy (f : ConsultationForm) (s d : float) :
  issues f = [] -> systolic f = Some s -> diastolic f = Some d ->
  ToBoolean s = true /\ ToBoolean d = true.
Proof.
  intros Hnil Hs Hd. unfold issues in Hnil.
  do 4 (apply app_nil in Hnil as [_ Hnil]).
  apply app_nil in Hnil as [Hsys Hnil].
  apply app_nil in Hnil as [Hdia _].
  rewrite Hs in Hsys. rewrite Hd in Hdia.
  split; eapply in_range_ToBoolean; try eassumption; reflexivity.
Qed.

Lemma valid_submitted (ctx : Context) (now : Z) (backend : Backend) (p : Page)
    (id : string) :
  appointmentId ctx = Some id ->
  truthy_string (appointmentId ctx) = true ->
  truthy_string (hospitalId ctx) = true ->
  user ctx = true ->
  issues (form p) = [] ->
  updates (snd (handleSubmit ctx now backend p)) = [(id, patch_of now (form p))].
Proof.
  intros Hid Ha Hh Hu Hnil. unfold handleSubmit, consultationSchema.
  rewrite Hnil. cbn [snd]. unfold onSubmit. rewrite Hid.
  rewrite Hid in Ha. rewrite Ha, Hh, Hu. cbn [negb orb].
  destruct (backend id (patch_of now (form p))) as [[[message|]]|message];
    reflexivity.
Qed.

(** C5. When a valid form is submitted, one update is sent, and its
    [vital_signs.blood_pressure] is ["<systolic>/<diastolic>"] when both
    are given (["120/80"] for 120 and 80) and null when either is left out. *)
Theorem blood_pressure_persisted
    (ctx : Context) (now : Z) (backend : Backend) (p : Page) (id : string) :
  appointmentId ctx = Some id ->
  truthy_string (appointmentId ctx) = true ->
  truthy_string (hospitalId ctx) = true ->
  user ctx = true ->
  issues (form p) = [] ->
  let data := form p in
  let patch := patch_of now data in
  let blood_pressure :=
    VitalSigns.blood_pressure (AppointmentPatch.vital_signs patch) in
  updates (snd (handleSubmit ctx now backend p)) = [(id, patch)]
  /\ (forall s d : float,
        systolic data = Some s -> diastolic data = Some d ->
        blood_pressure = Some (Number_toString s +:+ "/" +:+ Number_toString d))
  /\ (systolic data = Some 120%float -> diastolic data = Some 80%float ->
      blood_pressure = Some "120/80")
  /\ (systolic data = None \/ diastolic data = None -> blood_pressure = None).
Proof.
  intros Hid Ha Hh Hu Hnil data patch blood_pressure.
  assert (General : forall s d : float,
            systolic data = Some s -> diastolic data = Some d ->
            blood_pressure = Some (Number_toString s +:+ "/" +:+ Number_toString d)).
  { intros s d Hs Hd.
    destruct (valid_pressure_truthy data s d Hnil Hs Hd) as [Ts Td].
    subst blood_pressure patch. cbn [patch_of AppointmentPatch.vital_signs
      VitalSigns.blood_pressure]. unfold blood_pressure_of.
    rewrite Hs, Hd, Ts, Td. reflexivity. }
  split; [|split; [|split]].
  - apply valid_submitted; assumption.
  - exact General.
  - intros Hs Hd. rewrite (General _ _ Hs Hd). vm_compute. reflexivity.
  - intros H. subst blood_pressure patch. cbn [patch_of AppointmentPatch.vital_signs
      VitalSigns.blood_pressure]. unfold blood_pressure_of.
    destruct H as [H|H]; rewrite H; [reflexivity|].
    destruct (systolic data); reflexivity.
Qed.

Lemma blood_pressure_witness :
  let data := form_70_175 in
  let patch := patch_of 0 data in
  let blood_pressure :=
    VitalSigns.blood_pressure (AppointmentPatch.vital_signs patch) in
  updates (snd (handleSubmit complete_context 0 accepting (page_of data)))
  = [("appointment-1", patch)]
  /\ (forall s d : float,
        systolic data = Some s -> diastolic data = Some d ->
        blood_pressure = Some (Number_toString s +:+ "/" +:+ Number_toString d))
  /\ (systolic data = Some 120%float -> diastolic data = Some 80%float ->
      blood_pressure = Some "120/80")
  /\ (systolic data = None \/ diastolic data = None -> blood_pressure = None).
Proof.
  apply (blood_pressure_persisted complete_context 0 accepting
           (page_of form_70_175) "appointment-1");
    reflexivity.
Defined.

Example blood_pressure_120_80 :
  VitalSigns.blood_pressure
    (AppointmentPatch.vital_signs (patch_of 0 form_70_175))
  = Some "120/80".
Proof. vm_compute. reflexivity. Qed.

End SubmitFacts.

(** ** Follow-up quick picks *)
Module FollowUpFacts.

Import Consultation Samples.
Local Open Scope Z_scope.

(** "As needed" sets the label only. *)
Lemma quickPick_as_needed (tza now : Z) (f : ConsultationForm) :
  quickPick tza now "As needed" f = setValue_followUpDuration "As needed" f.
Proof. reflexivity. Qed.

(** Every button sets the label it carries. *)
Lemma quickPick_label (tza now : Z) (duration : string) (f : ConsultationForm) :
  followUpDuration (quickPick tza now duration f) = Some duration.
Proof.
  unfold quickPick.
  destruct (negb (String.eqb duration "As needed")); reflexivity.
Qed.

(** In UTC, at noon on 15 March 2024, the picks give the expected dates. *)
Example quickPick_utc_noon :
  let now := JsDate.utc 2024 3 15 12 0 in
  map (fun d => followUpDate (quickPick 0 now d defaultValues)) quickPickDurations
  = [Some "2024-03-22"; Some "2024-03-29"; Some "2024-04-15";
     Some "2024-06-15"; Some "2024-09-15"; None].
Proof. vm_compute. reflexivity. Qed.

(** C6 (the code departs from it). The date is computed on the local
    calendar and then written with [toISOString], which is in UTC. At
    01:00 on 1 March 2024 in India the local day is 1 March, yet "1 month"
    stores 31 March (not 1 April), "1 week" 7 March (not 8 March) and
    "3 months" 31 May (not 1 June). The label is set as claimed and "As
    needed" leaves the date unset. *)
Theorem quickPick_date_is_utc_day :
  let today := (JsDate.getFullYear IST early_morning,
                JsDate.getMonth IST early_morning + 1,
                JsDate.getDate IST early_morning) in
  let picked d := quickPick IST early_morning d defaultValues in
  today = (2024, 3, 1)
  /\ followUpDate (picked "1 month") = Some "2024-03-31"
  /\ followUpDuration (picked "1 month") = Some "1 month"
  /\ followUpDate (picked "1 week") = Some "2024-03-07"
  /\ followUpDate (picked "2 weeks") = Some "2024-03-14"
  /\ followUpDate (picked "3 months") = Some "2024-05-31"
  /\ followUpDate (picked "6 months") = Some "2024-08-31"
  /\ followUpDate (picked "As needed") = None.
Proof.
  vm_compute. repeat split; reflexivity.
Qed.

End FollowUpFacts.

(** ** The session store *)
Module AuthFacts.

Import AuthStore StoreSpec Samples.
Local Open Scope async_scope.

(** *** The flag and the profile stay in step

    Each building block of an asynchronous function keeps the store
    consistent, the persisted entry included; so does every action. *)

Lemma preserves_ret {A : Type} (a : A) : preserves (ret a).
Proof. intros w H. exact H. Qed.

Lemma preserves_bind {A B : Type} (m : Async A) (k : A -> Async B) :
  preserves m -> (forall a, preserves (k a)) -> preserves (bind m k).
Proof.
  intros Hm Hk w H. unfold bind. specialize (Hm w H).
  destruct (m w) as [[a|message] w']; cbn in *.
  - apply Hk. exact Hm.
  - exact Hm.
Qed.

Lemma preserves_try_catch {A : Type} (body : Async A) (handler : string -> Async A) :
  preserves body -> (forall message, preserves (handler message)) ->
  preserves (try_catch body handler).
Proof.
  intros Hb Hh w H. unfold try_catch. specialize (Hb w H).
  destruct (body w) as [[a|message] w']; cbn in *.
  - exact Hb.
  - apply Hh. exact Hb.
Qed.

Lemma preserves_try_finally {A : Type} (body : Async A) (final : Async unit) :
  preserves body -> preserves final -> preserves (try_finally body final).
Proof.
  intros Hb Hf w H. unfold try_finally. specialize (Hb w H).
  destruct (body w) as [c w']; cbn in *. specialize (Hf w' Hb).
  destruct (final w') as [[[]|message] w'']; exact Hf.
Qed.

Lemma preserves_log (e : Event) : preserves (log e).
Proof. intros w H. exact H. Qed.

Lemma preserves_get : preserves get.
Proof. intros w H. exact H. Qed.

Lemma preserves_await {A : Type} (request : Request) (answer : Settled A) :
  preserves (await request answer).
Proof. intros w H. unfold await. destruct answer; exact H. Qed.

Lemma preserves_removeItem : preserves removeItem.
Proof. intros w [H _]. split; [exact H | exact I]. Qed.

Lemma preserves_set (update : AuthState -> AuthState) :
  (forall s, consistent s -> consistent (update s)) -> preserves (set update).
Proof.
  intros Hu w [H _]. unfold set. cbn. split; apply Hu; exact H.
Qed.

Lemma preserves_setLoading (b : bool) : preserves (setLoading b).
Proof. apply preserves_set. intros s H. exact H. Qed.

Lemma preserves_setSession (s : option Session.t) : preserves (setSession s).
Proof. apply preserves_set. intros st H. exact H. Qed.

Lemma preserves_setUser (u : option User.t) : preserves (setUser u).
Proof. apply preserves_set. intros s _. reflexivity. Qed.

Create HintDb preserve discriminated.

#[local] Hint Resolve preserves_ret preserves_log preserves_get preserves_await
  preserves_removeItem preserves_setLoading preserves_setSession
  preserves_setUser : preserve.

(** Takes an asynchronous function apart along its binds, handlers and
    case distinctions; what remains are the calls to [set]. *)
Ltac preserve :=
  repeat first
    [ progress intros
    | solve [auto with preserve]
    | apply preserves_bind
    | apply preserves_try_catch
    | apply preserves_try_finally
    | match goal with
      | |- preserves (match ?x with _ => _ end) => destruct x
      | |- preserves (set _) => apply preserves_set
      | |- preserves (let _ := _ in _) => cbv zeta
      end ].

Lemma preserves_signIn (be : Backend) (now : Z) (email password : string) :
  preserves (signIn be now email password).
Proof. unfold signIn. preserve; reflexivity || assumption. Qed.

Lemma preserves_signUp (be : Backend) (email password : string) (userData : UserData) :
  preserves (signUp be email password userData).
Proof. unfold signUp. preserve; assumption. Qed.

Lemma preserves_signOut (be : Backend) : preserves (signOut be).
Proof. unfold signOut. preserve; reflexivity. Qed.

Lemma preserves_resetPassword (be : Backend) (email : string) :
  preserves (resetPassword be email).
Proof. unfold resetPassword. preserve. Qed.

(** [updateProfile] replaces the profile only when there is one. *)
Lemma preserves_updateProfile (be : Backend) (data : list (string * string)) :
  preserves (updateProfile be data).
Proof.
  intros w [H Hs]. unfold updateProfile, try_catch, bind, get, await, set, ret.
  cbn. destruct (user (state (store w))) as [u|] eqn:Hu; cbn.
  - destruct (users_update be (User.id u) data) as [[updatedUser|message]|message]; cbn;
      try (split; assumption).
    unfold consistent in H. rewrite Hu in H.
    split; unfold consistent; cbn; exact H.
  - split; assumption.
Qed.

Lemma preserves_initialize (be : Backend) : preserves (initialize be).
Proof. unfold initialize. preserve; reflexivity || assumption. Qed.

Lemma preserves_onAuthStateChange (be : Backend) (event : AuthChangeEvent)
    (s : option Session.t) :
  preserves (onAuthStateChange be event s).
Proof. unfold onAuthStateChange. preserve. Qed.

Lemma preserves_hook_onAuthStateChange (be : Backend) (now : Z)
    (event : AuthChangeEvent) (s : option Session.t) :
  preserves (UseAuth.onAuthStateChange be now event s).
Proof. unfold UseAuth.onAuthStateChange. preserve. Qed.

#[local] Hint Resolve preserves_signOut : preserve.

Lemma preserves_hook_signOut (be : Backend) : preserves (UseAuth.signOut be).
Proof. unfold UseAuth.signOut. preserve. Qed.

#[local] Hint Resolve preserves_hook_signOut : preserve.

Lemma preserves_refreshSession (be : Backend) : preserves (UseAuth.refreshSession be).
Proof. unfold UseAuth.refreshSession. preserve. Qed.

Lemma reload_consistent (st : Store) :
  consistent_store st -> consistent_store (reload st).
Proof.
  intros [_ Hs]. unfold reload, rehydrate.
  destruct (storage st) as [p|]; split; cbn; try exact Hs; try exact I; reflexivity.
Qed.

Lemma exec_consistent {A : Type} (m : Async A) (st : Store) :
  preserves m -> consistent_store st -> consistent_store (exec m st).
Proof. intros Hm H. apply (Hm {| store := st; trace := [] |}). exact H. Qed.

Lemma run_consistent (op : Operation) (st : Store) :
  consistent_store st -> consistent_store (run op st).
Proof.
  destruct op; cbn [run]; try apply exec_consistent;
    auto using preserves_signIn, preserves_signUp, preserves_signOut,
      preserves_resetPassword, preserves_updateProfile, preserves_initialize,
      preserves_setUser, preserves_setSession, preserves_setLoading,
      preserves_onAuthStateChange, preserves_hook_onAuthStateChange,
      preserves_hook_signOut, preserves_refreshSession, reload_consistent.
Qed.

Lemma reachable_consistent (st : Store) : reachable st -> consistent_store st.
Proof.
  induction 1 as [|op st _ IH].
  - split; [reflexivity | exact I].
  - apply run_consistent. exact IH.
Qed.

(** *** Signing out *)

(** When the backend call returns, with or without an error in its
    answer, the hook's [signOut] leaves a cleared state, and the entry
    written back to [localStorage] by the final [setLoading(false)] is the
    cleared one. *)
Lemma signOut_resolved_clears (be : Backend) (w : World) (answer : option string) :
  auth_signOut be = Resolved answer ->
  store (snd (UseAuth.signOut be w))
  = {| state := cleared; storage := Some (partialize cleared) |}.
Proof.
  intros H.
  unfold UseAuth.signOut, signOut, try_finally, try_catch, bind, setLoading,
    set, await, removeItem, log.
  rewrite H. reflexivity.
Qed.

(** When the backend call is rejected, nothing is cleared: the state is
    the one before, with [loading] off, and it is persisted again. *)
Lemma signOut_rejected_keeps_state (be : Backend) (w : World) (message : string) :
  auth_signOut be = Rejected message ->
  let kept := with_loading false (state (store w)) in
  store (snd (UseAuth.signOut be w))
  = {| state := kept; storage := Some (partialize kept) |}.
Proof.
  intros H.
  unfold UseAuth.signOut, signOut, try_finally, try_catch, bind, setLoading,
    set, await, removeItem, log.
  rewrite H. reflexivity.
Qed.

(** C3 (the code departs from it). When the backend sign-out call is
    rejected, the store's [signOut] skips its [set]: after the hook's
    [signOut] the user, the session, the hospital and the flag are all
    still there. The persisted entry is removed and the browser sent to
    the login page, but the final [setLoading(false)] persists the state
    again, so a reload finds the user authenticated. *)
Theorem signOut_rejected_keeps_session :
  let be := backend (Rejected "Failed to fetch") written in
  let after := snd (UseAuth.signOut be {| store := signed_in; trace := [] |}) in
  user (state signed_in) = Some nurse
  /\ user (state (store after)) = Some nurse
  /\ session (state (store after)) = Some token
  /\ hospitalId (state (store after)) = Some "hospital-1"
  /\ isAuthenticated (state (store after)) = true
  /\ trace after
     = [Set_ (with_loading true (state signed_in));
        Call SignOut;
        ConsoleError "Failed to fetch";
        RemoveItem "auth-storage";
        LocationHref "/login";
        Set_ (state signed_in)]
  /\ storage (store after) = Some (partialize (state signed_in))
  /\ isAuthenticated (state (reload (store after))) = true.
Proof.
  vm_compute. repeat split; reflexivity.
Qed.

(** *** Signing in *)




(** *** The authentication flag *)

(** C4, as the code has it. In every store reached by running operations
    one after another, [isAuthenticated] is true exactly when a user
    profile is present; the session and its expiry are not consulted. *)
Theorem authenticated_iff_profile (st : Store) :
  reachable st ->
  isAuthenticated (state st) = true <-> is_Some (user (state st)).
Proof.
  intros H. destruct (reachable_consistent st H) as [Hc _].
  unfold consistent in Hc. rewrite Hc. apply bool_decide_eq_true.
Qed.

Lemma signed_in_reachable : reachable signed_in.
Proof. apply reachable_run, reachable_initial. Qed.

Lemma authenticated_iff_profile_witness :
  isAuthenticated (state signed_in) = true <-> is_Some (user (state signed_in)).
Proof.
  apply (authenticated_iff_profile signed_in). exact signed_in_reachable.
Defined.

(** C4 as stated fails: after a reload the flag is restored from
    [localStorage] while no session is held at all, and after a sign-in
    the flag stays true once the token has expired (here at 2000 seconds,
    the token expiring at 1000). *)
Lemma authenticated_without_valid_token :
  reachable (reload signed_in)
  /\ isAuthenticated (state (reload signed_in)) = true
  /\ session (state (reload signed_in)) = None
  /\ (forall now, token_valid now (state (reload signed_in)) = false)
  /\ reachable signed_in
  /\ isAuthenticated (state signed_in) = true
  /\ session (state signed_in) = Some token
  /\ token_valid 2000000 (state signed_in) = false.
Proof.
  split; [apply (reachable_run DoReload), signed_in_reachable|].
  split; [reflexivity|]. split; [reflexivity|]. split; [intros now; reflexivity|].
  split; [exact signed_in_reachable|].
  repeat split; reflexivity.
Qed.

End AuthFacts.

(** ** The route guard *)
Module RouteGuardFacts.

Import RouteGuard GuardSpec Samples.

Lemma guard_is_first_failing (props : Props) (i : Inputs) :
  ProtectedRoute props i = first_failing props i gate_order.
Proof.
  unfold ProtectedRoute, gate_order, first_failing, passes, refusal.
  destruct (loading i), (sessionChecked i); cbn; try reflexivity.
  destruct (user i) as [u|]; cbn.
  - destruct (isAuthenticated i); cbn; [|reflexivity].
    destruct (User.is_active u); cbn; [|reflexivity].
    destruct (Consultation.truthy_string (hospitalId i)); cbn; [|reflexivity].
    destruct (required (requiredRole props)) as [roles|]; [|reflexivity].
    destruct (includes roles (User.role u)); reflexivity.
  - destruct (isAuthenticated i); reflexivity.
Qed.

Lemma role_denied (props : Props) (i : Inputs) (u : User.t) (roles : list string) :
  loading i = false -> sessionChecked i = true ->
  isAuthenticated i = true -> user i = Some u ->
  User.is_active u = true ->
  Consultation.truthy_string (hospitalId i) = true ->
  required (requiredRole props) = Some roles ->
  includes roles (User.role u) = false ->
  ProtectedRoute props i = AccessDenied roles.
Proof.
  intros Hl Hc Ha Hu Hact Hh Hr Hi. unfold ProtectedRoute.
  rewrite Hl, Hc, Hu, Ha, Hact, Hh, Hr, Hi. reflexivity.
Qed.

(** C8. The guard is the list of gates loading, authentication,
    account-active, hospital, role, tried in that order and stopped at the
    first that fails. In particular an authenticated, active user with a
    hospital whose role is not among the required ones (a nurse where
    "admin" is required) gets the access-denied view, whose only action is
    "go back", and no navigation. *)
Theorem guard_gate_order (props : Props) (i : Inputs) :
  ProtectedRoute props i = first_failing props i gate_order
  /\ (forall (u : User.t) (roles : list string),
        loading i = false -> sessionChecked i = true ->
        isAuthenticated i = true -> user i = Some u ->
        User.is_active u = true ->
        Consultation.truthy_string (hospitalId i) = true ->
        required (requiredRole props) = Some roles ->
        includes roles (User.role u) = false ->
        ProtectedRoute props i = AccessDenied roles
        /\ actions (ProtectedRoute props i) = [GoBackButton]
        /\ navigates (ProtectedRoute props i) = false)
  /\ (forall u : User.t,
        loading i = false -> sessionChecked i = true ->
        isAuthenticated i = true -> user i = Some u ->
        User.is_active u = true ->
        Consultation.truthy_string (hospitalId i) = true ->
        User.role u = "nurse" ->
        requiredRole props = Some (OneRole "admin") ->
        ProtectedRoute props i = AccessDenied ["admin"]).
Proof.
  split; [apply guard_is_first_failing|]. split.
  - intros u roles Hl Hc Ha Hu Hact Hh Hr Hi.
    rewrite (role_denied props i u roles) by assumption.
    repeat split; reflexivity.
  - intros u Hl Hc Ha Hu Hact Hh Hrole Hreq.
    apply (role_denied props i u); try assumption.
    + rewrite Hreq. reflexivity.
    + rewrite Hrole. reflexivity.
Qed.

Lemma guard_gate_order_witness :
  ProtectedRoute admin_only nurse_visit = AccessDenied ["admin"]
  /\ actions (ProtectedRoute admin_only nurse_visit) = [GoBackButton]
  /\ navigates (ProtectedRoute admin_only nurse_visit) = false.
Proof.
  apply (proj1 (proj2 (guard_gate_order admin_only nurse_visit))
           nurse ["admin"]); reflexivity.
Defined.

(** Each earlier gate wins over every later one. *)
Lemma loading_first (props : Props) (i : Inputs) :
  loading i = true \/ sessionChecked i = false ->
  ProtectedRoute props i = LoadingIndicator.
Proof.
  intros [H|H]; unfold ProtectedRoute; rewrite H;
    [reflexivity | destruct (loading i); reflexivity].
Qed.

Lemma authentication_second (props : Props) (i : Inputs) :
  loading i = false -> sessionChecked i = true ->
  isAuthenticated i = false \/ user i = None ->
  ProtectedRoute props i = NavigateTo (fallbackPath props) (pathname i).
Proof.
  intros Hl Hc [H|H]; unfold ProtectedRoute; rewrite Hl, Hc, H; cbn;
    [destruct (user i); reflexivity | reflexivity].
Qed.

End RouteGuardFacts.

(** ** Numbers: comparisons *)
Section ComparisonFacts.

Import JsNumber.

Lemma SFcompare_antisym (x y : spec_float) :
  SFcompare y x = option_map CompOpp (SFcompare x y).
Proof.
  destruct x as [s|s| |s m e], y as [t|t| |t n f]; cbn; try reflexivity;
    try (destruct s; reflexivity); try (destruct t; reflexivity);
    try (destruct s, t; reflexivity).
  destruct s, t; try reflexivity; f_equal;
    rewrite (Z.compare_antisym e f); destruct (e ?= f)%Z; cbn; try reflexivity;
    rewrite (Pos.compare_cont_antisym m n Eq); cbn;
    try rewrite CompOpp_involutive; reflexivity.
Qed.

Lemma isNaN_SFcompare (x y : float) :
  isNaN x = false -> isNaN y = false ->
  exists c, SFcompare (Prim2SF x) (Prim2SF y) = Some c.
Proof.
  unfold isNaN. rewrite !FloatAxioms.classify_spec.
  destruct (Prim2SF x) as [s|s| |s m e], (Prim2SF y) as [t|t| |t n f];
    cbn; intros Hx Hy; try discriminate; eauto.
Qed.

Lemma SFcompare_not_NaN (x y : float) (c : comparison) :
  SFcompare (Prim2SF x) (Prim2SF y) = Some c -> isNaN x = false /\ isNaN y = false.
Proof.
  unfold isNaN. rewrite !FloatAxioms.classify_spec.
  destruct (Prim2SF x) as [s|s| |s m e], (Prim2SF y) as [t|t| |t n f];
    cbn; intros H; try discriminate; split;
    repeat match goal with
           | |- context [if ?b then _ else _] => destruct b
           | s : bool |- _ => destruct s
           end; reflexivity.
Qed.

(** [lo <= x] says that [x] is a number and not below [lo]. *)
Lemma leb_iff_not_ltb (lo x : float) :
  isNaN lo = false ->
  (lo <=? x)%float = true <-> isNaN x = false /\ (x <? lo)%float = false.
Proof.
  intros Hlo. rewrite FloatAxioms.leb_spec, FloatAxioms.ltb_spec.
  unfold SFleb, SFltb. rewrite (SFcompare_antisym (Prim2SF lo) (Prim2SF x)).
  split.
  - destruct (SFcompare (Prim2SF lo) (Prim2SF x)) as [c|] eqn:Hc; [|discriminate].
    destruct (SFcompare_not_NaN _ _ _ Hc) as [_ Hx].
    destruct c; cbn; intros H; try discriminate; auto.
  - intros [Hx H]. destruct (isNaN_SFcompare lo x Hlo Hx) as [c Hc].
    rewrite Hc in *. destruct c; cbn in *; try discriminate; reflexivity.
Qed.

(** [x <= hi] says that [x] is a number and not above [hi]. *)
Lemma leb_iff_not_gtb (hi x : float) :
  isNaN hi = false ->
  (x <=? hi)%float = true <-> isNaN x = false /\ (hi <? x)%float = false.
Proof.
  intros Hhi. rewrite FloatAxioms.leb_spec, FloatAxioms.ltb_spec.
  unfold SFleb, SFltb. rewrite (SFcompare_antisym (Prim2SF x) (Prim2SF hi)).
  split.
  - destruct (SFcompare (Prim2SF x) (Prim2SF hi)) as [c|] eqn:Hc; [|discriminate].
    destruct (SFcompare_not_NaN _ _ _ Hc) as [Hx _].
    destruct c; cbn; intros H; try discriminate; auto.
  - intros [Hx H]. destruct (isNaN_SFcompare x hi Hx Hhi) as [c Hc].
    rewrite Hc in *. destruct c; cbn in *; try discriminate; reflexivity.
Qed.

End ComparisonFacts.

(** ** Strings and lists *)
Section StringFacts.

Lemma prefix_append (a b : string) :
  String.prefix a b = true <-> exists c, b = a +:+ c.
Proof.
  revert b. induction a as [|x a IH]; intros b.
  - split; [intros _; exists b; reflexivity | intros _; destruct b; reflexivity].
  - destruct b as [|y b]; cbn [String.prefix].
    + split; [discriminate | intros [c H]; discriminate H].
    + destruct (ascii_dec x y) as [->|Hne].
      * rewrite IH. split; intros [c H]; exists c.
        -- rewrite H. reflexivity.
        -- injection H as H. exact H.
      * split; [discriminate|]. intros [c H]. injection H as H _.
        contradiction Hne. symmetry. exact H.
Qed.

Lemma append_assoc (a b c : string) : (a +:+ b) +:+ c = a +:+ (b +:+ c).
Proof.
  induction a as [|x a IH]; [reflexivity|].
  change ((String x a +:+ b) +:+ c) with (String x ((a +:+ b) +:+ c)).
  rewrite IH. reflexivity.
Qed.

(** Two prefixes of one string: one is a prefix of the other. *)
Lemma prefix_comparable (a b s : string) :
  String.prefix a s = true -> String.prefix b s = true ->
  String.prefix a b = true \/ String.prefix b a = true.
Proof.
  revert b s. induction a as [|x a IH]; intros b s Ha Hb; [left; destruct b; reflexivity|].
  destruct b as [|y b]; [right; reflexivity|].
  destruct s as [|z s]; [discriminate Ha|].
  cbn [String.prefix] in *.
  destruct (ascii_dec x z) as [->|]; [|discriminate Ha].
  destruct (ascii_dec y z) as [->|]; [|discriminate Hb].
  destruct (ascii_dec z z) as [_|Hne]; [|contradiction Hne; reflexivity].
  exact (IH b s Ha Hb).
Qed.



Lemma List_filter_sublist {A : Type} (f : A -> bool) (l : list A) :
  List.filter f l `sublist_of` l.
Proof.
  induction l as [|a l IH]; cbn; [constructor|].
  destruct (f a); [apply sublist_skip | apply sublist_cons]; exact IH.
Qed.

End StringFacts.

(** ** The session store: what each action leaves behind *)
Module SessionFacts.

Import AuthStore StoreSpec Samples MoreSamples.
Local Open Scope async_scope.

(** Unfolds the monad, so that an action becomes a case distinction on
    the backend's answers. *)
Ltac run_async :=
  unfold try_finally, try_catch, bind, setUser, setSession, setLoading, set,
    await, removeItem, log, get, ret; cbn.

(** X1. The hook's [signOut] never throws and always does the same
    things in the same order, whatever the backend answers: loading on,
    the sign-out call, the store's reaction (the cleared state, or only a
    logged error), removal of the persisted entry, the redirect to
    ["/login"], loading off. The last step persists the state again, so
    the entry removed is back when the function returns. *)
Theorem hook_signOut_always_redirects (be : Backend) (w : World) :
  exists (reaction : Event) (st : Store),
    UseAuth.signOut be w
    = (Normal tt,
       {| store := st;
          trace := trace w
                   ++ [Set_ (with_loading true (state (store w)));
                       Call SignOut;
                       reaction;
                       RemoveItem "auth-storage";
                       LocationHref "/login";
                       Set_ (state st)] |})
    /\ loading (state st) = false
    /\ storage st = Some (partialize (state st)).
Proof.
  unfold UseAuth.signOut, signOut. run_async.
  destruct (auth_signOut be) as [answer|message]; cbn.
  - exists (Set_ cleared), {| state := cleared; storage := Some (partialize cleared) |}.
    rewrite <- !app_assoc. repeat split.
  - exists (ConsoleError message),
      {| state := with_loading false (state (store w));
         storage := Some (partialize (with_loading false (state (store w)))) |}.
    rewrite <- !app_assoc. repeat split.
Qed.

(** X2. The logout entry of the sidebar always shows the "Signed Out"
    toast: the hook's [signOut] catches every error, so the "Sign Out
    Error" toast cannot appear. When the backend call was rejected the
    toast is shown although the user and the flag are still in the store. *)
Theorem handleLogout_always_reports_success (be : Backend) (w : World) :
  exists w',
    SidebarLayout.handleLogout be w
    = (Normal {| SidebarLayout.title := "Signed Out";
                 SidebarLayout.description := "You have been successfully signed out.";
                 SidebarLayout.variant := "default" |}, w')
    /\ In (LocationHref "/login") (trace w')
    /\ (forall message,
          auth_signOut be = Rejected message ->
          user (state (store w')) = user (state (store w))
          /\ session (state (store w')) = session (state (store w))
          /\ isAuthenticated (state (store w')) = isAuthenticated (state (store w))).
Proof.
  unfold SidebarLayout.handleLogout, UseAuth.signOut, signOut. run_async.
  destruct (auth_signOut be) as [answer|message]; cbn; eexists;
    (split; [reflexivity|]); split.
  - cbn. rewrite !in_app_iff. cbn. auto 10.
  - intros message H. discriminate H.
  - cbn. rewrite !in_app_iff. cbn. auto 10.
  - intros _ _. repeat split.
Qed.

(** X3. [signIn] never throws, and it reports success only after it has
    put the fetched profile into the store: the user is the profile the
    backend returned for the signed-in identity, the session the one of
    the sign-in answer, the hospital the profile's, the flag on and
    loading off, and that state is the one persisted. *)
Theorem signIn_success_authenticates
    (be : Backend) (now : Z) (email password : string) (w : World) :
  exists r w',
    signIn be now email password w = (Normal r, w')
    /\ (success r = true ->
        exists a id profile,
          auth_signIn be email password = Resolved a
          /\ auth_error a = None
          /\ data_user a = Some id
          /\ users_select be id = Resolved (Success profile)
          /\ state (store w')
             = {| user := Some profile; session := data_session a;
                  hospitalId := User.hospital_id profile;
                  isAuthenticated := true; loading := false |}
          /\ storage (store w') = Some (partialize (state (store w')))).
Proof.
  unfold signIn. run_async.
  destruct (auth_signIn be email password) as [a|message] eqn:Ha; cbn.
  2:{ eexists; eexists; split; [reflexivity|]. cbn. discriminate. }
  destruct (auth_error a) as [message|] eqn:He; cbn.
  { eexists; eexists; split; [reflexivity|]. cbn. discriminate. }
  destruct (data_user a) as [id|] eqn:Hid; cbn.
  2:{ eexists; eexists; split; [reflexivity|]. cbn. discriminate. }
  destruct (users_select be id) as [[profile|message]|message] eqn:Hp; cbn.
  2,3: eexists; eexists; split; [reflexivity|]; cbn; discriminate.
  destruct (users_update_last_login be id (JsDate.toISOString now))
    as [answer|message]; cbn.
  2:{ eexists; eexists; split; [reflexivity|]. cbn. discriminate. }
  eexists; eexists; split; [reflexivity|]. intros _.
  exists a, id, profile. repeat split; assumption.
Qed.

(** X4. When the backend answers the credentials with an error (a wrong
    password), [signIn] returns that error, changes nothing in the store
    but [loading], and leaves [loading] on: only the success path and
    the [catch] reset it. *)
Theorem signIn_refused_stays_loading
    (be : Backend) (now : Z) (email password : string) (w : World)
    (a : AuthTokenResponse) (message : string) :
  auth_signIn be email password = Resolved a ->
  auth_error a = Some message ->
  let kept := with_loading true (state (store w)) in
  signIn be now email password w
  = (Normal (failed message),
     {| store := {| state := kept; storage := Some (partialize kept) |};
        trace := trace w ++ [Set_ kept; Call (SignInWithPassword email password)] |}).
Proof.
  intros Ha He kept. unfold signIn. run_async. rewrite Ha. cbn. rewrite He. cbn.
  rewrite <- !app_assoc. reflexivity.
Qed.

Lemma signIn_refused_witness :
  let kept := with_loading true (state (store first_visit)) in
  signIn wrong_password 0 "nurse@example.org" "guess" first_visit
  = (Normal (failed "Invalid login credentials"),
     {| store := {| state := kept; storage := Some (partialize kept) |};
        trace := trace first_visit
                 ++ [Set_ kept; Call (SignInWithPassword "nurse@example.org" "guess")] |}).
Proof.
  apply (signIn_refused_stays_loading wrong_password 0 "nurse@example.org" "guess"
           first_visit
           {| data_user := None; data_session := None;
              auth_error := Some "Invalid login credentials" |});
    reflexivity.
Defined.

(** X5. [signUp] never throws and never signs the new user in: the user,
    the session, the hospital and the flag are as before. After a
    successful registration [loading] is still on, since only the [catch]
    turns it off. *)
Theorem signUp_never_signs_in
    (be : Backend) (email password : string) (userData : UserData) (w : World) :
  exists r w',
    signUp be email password userData w = (Normal r, w')
    /\ user (state (store w')) = user (state (store w))
    /\ session (state (store w')) = session (state (store w))
    /\ hospitalId (state (store w')) = hospitalId (state (store w))
    /\ isAuthenticated (state (store w')) = isAuthenticated (state (store w))
    /\ (success r = true -> loading (state (store w')) = true).
Proof.
  unfold signUp. run_async.
  destruct (auth_signUp be email password userData) as [a|message]; cbn.
  2:{ eexists; eexists; split; [reflexivity|]. cbn. repeat split. discriminate. }
  destruct (auth_error a) as [message|]; cbn.
  { eexists; eexists; split; [reflexivity|]. cbn. repeat split. }
  destruct (data_user a) as [id|]; cbn.
  2:{ eexists; eexists; split; [reflexivity|]. cbn. repeat split. }
  destruct (users_insert be id userData) as [[[message|]]|message]; cbn;
    eexists; eexists; (split; [reflexivity|]); cbn; repeat split; discriminate.
Qed.

(** X6. [initialize] never throws and ends with [loading] off. It either
    installs the profile fetched for the backend's session, or changes
    nothing else: without a backend session (or when a call fails) a user
    restored from [localStorage] stays, with the flag on. *)
Theorem initialize_installs_or_keeps (be : Backend) (w : World) :
  exists w',
    initialize be w = (Normal tt, w')
    /\ loading (state (store w')) = false
    /\ (state (store w') = with_loading false (state (store w))
        \/ exists r s id profile,
             auth_getSession be = Resolved r
             /\ response_session r = Some s
             /\ Session.user s = Some id
             /\ users_select be id = Resolved (Success profile)
             /\ state (store w')
                = {| user := Some profile; session := Some s;
                     hospitalId := User.hospital_id profile;
                     isAuthenticated := true; loading := false |}).
Proof.
  unfold initialize. run_async.
  destruct (auth_getSession be) as [r|message] eqn:Hr; cbn.
  2:{ eexists; split; [reflexivity|]. cbn. split; [reflexivity|]. left. reflexivity. }
  destruct (response_session r) as [s|] eqn:Hs; cbn.
  2:{ eexists; split; [reflexivity|]. cbn. split; [reflexivity|]. left. reflexivity. }
  destruct (Session.user s) as [id|] eqn:Hid; cbn.
  2:{ eexists; split; [reflexivity|]. cbn. split; [reflexivity|]. left. reflexivity. }
  destruct (users_select be id) as [[profile|message]|message] eqn:Hp; cbn.
  2,3: eexists; split; [reflexivity|]; cbn; split; [reflexivity|]; left; reflexivity.
  eexists; split; [reflexivity|]. cbn. split; [reflexivity|]. right.
  exists r, s, id, profile. repeat split; assumption.
Qed.

(** X7. The hook's listener never throws, whatever the event and the
    backend's answers; afterwards [loading] is off and the store's
    session is the session the event came with. *)
Theorem hook_listener_settles
    (be : Backend) (now : Z) (event : AuthChangeEvent) (s : option Session.t)
    (w : World) :
  exists w',
    UseAuth.onAuthStateChange be now event s w = (Normal tt, w')
    /\ loading (state (store w')) = false
    /\ session (state (store w')) = s.
Proof.
  unfold UseAuth.onAuthStateChange. run_async.
  destruct event, (session_user s) as [id|]; cbn;
    try (eexists; split; [reflexivity|]; cbn; split; reflexivity);
    destruct (users_select be id) as [[profile|message]|message]; cbn;
    try (eexists; split; [reflexivity|]; cbn; split; reflexivity).
  destruct (users_update_last_login be id (JsDate.toISOString now))
    as [answer|message]; cbn;
    eexists; (split; [reflexivity|]); cbn; split; reflexivity.
Qed.

(** X8. A [SIGNED_OUT] event clears the store through either listener
    without asking the backend anything: no user, no hospital, the flag
    off, loading off, the session the one of the event; the trace holds
    only writes to the store. *)
Theorem signed_out_event_clears
    (be : Backend) (now : Z) (s : option Session.t) (w : World) :
  let after :=
    {| user := None; session := s; loading := false;
       hospitalId := None; isAuthenticated := false |} in
  (exists writes,
     onAuthStateChange be SIGNED_OUT s w
     = (Normal tt,
        {| store := {| state := after; storage := Some (partialize after) |};
           trace := trace w ++ map Set_ writes |}))
  /\ (exists writes,
        UseAuth.onAuthStateChange be now SIGNED_OUT s w
        = (Normal tt,
           {| store := {| state := after; storage := Some (partialize after) |};
              trace := trace w ++ map Set_ writes |})).
Proof.
  intros after. split.
  - unfold onAuthStateChange. run_async.
    eexists [_; _; _; _]. rewrite <- !app_assoc. reflexivity.
  - unfold UseAuth.onAuthStateChange. run_async.
    eexists [_; _; _; _]. rewrite <- !app_assoc. reflexivity.
Qed.

(** X9. [updateProfile] never throws and touches nothing but the
    profile: the session, the hospital, the flag and [loading] are as
    before, so a changed [hospital_id] does not reach the store's
    [hospitalId]. Without a user it returns "No user logged in" and does
    nothing at all, not even a backend call. *)
Theorem updateProfile_changes_only_the_profile
    (be : Backend) (data : list (string * string)) (w : World) :
  exists r w',
    updateProfile be data w = (Normal r, w')
    /\ session (state (store w')) = session (state (store w))
    /\ hospitalId (state (store w')) = hospitalId (state (store w))
    /\ isAuthenticated (state (store w')) = isAuthenticated (state (store w))
    /\ loading (state (store w')) = loading (state (store w))
    /\ (user (state (store w)) = None ->
        r = failed "No user logged in" /\ w' = w)
    /\ (success r = true ->
        exists u updated,
          user (state (store w)) = Some u
          /\ users_update be (User.id u) data = Resolved (Success updated)
          /\ user (state (store w')) = Some updated).
Proof.
  unfold updateProfile. run_async.
  destruct (user (state (store w))) as [u|] eqn:Hu; cbn.
  2:{ eexists; eexists; split; [reflexivity|]. repeat split. discriminate. }
  destruct (users_update be (User.id u) data) as [[updated|message]|message] eqn:Hr; cbn;
    eexists; eexists; (split; [reflexivity|]); cbn; repeat split;
    try discriminate.
  intros _. exists u, updated. repeat split. exact Hr.
Qed.

(** X10. [refreshSession] never throws and ends with [loading] off. When
    the refresh call is rejected or answers with an error, the user is
    signed out through the hook's [signOut]: the sign-out call is made
    and the browser sent to ["/login"]. *)
Theorem refreshSession_failure_signs_out (be : Backend) (w : World) :
  exists w',
    UseAuth.refreshSession be w = (Normal tt, w')
    /\ loading (state (store w')) = false
    /\ (match auth_refreshSession be with
        | Rejected _ => True
        | Resolved r => is_Some (response_error r)
        end ->
        In (Call SignOut) (trace w') /\ In (LocationHref "/login") (trace w')).
Proof.
  unfold UseAuth.refreshSession, UseAuth.signOut, signOut. run_async.
  destruct (auth_refreshSession be) as [r|message]; cbn.
  - destruct (response_error r) as [message|]; cbn.
    + destruct (auth_signOut be); cbn; eexists; (split; [reflexivity|]); cbn;
        (split; [reflexivity|]); intros _; rewrite !in_app_iff; cbn; auto 10.
    + destruct (response_session r) as [s|]; cbn.
      2:{ eexists; split; [reflexivity|]. split; [reflexivity|].
          intros [? H]; discriminate H. }
      destruct (Session.user s) as [id|]; cbn.
      2:{ eexists; split; [reflexivity|]. split; [reflexivity|].
          intros [? H]; discriminate H. }
      destruct (users_select be id) as [[profile|message]|message]; cbn.
      1,2: eexists; (split; [reflexivity|]); (split; [reflexivity|]);
           intros [? H]; discriminate H.
      destruct (auth_signOut be); cbn; eexists; (split; [reflexivity|]); cbn;
        (split; [reflexivity|]); intros [? H]; discriminate H.
  - destruct (auth_signOut be); cbn; eexists; (split; [reflexivity|]); cbn;
      (split; [reflexivity|]); intros _; rewrite !in_app_iff; cbn; auto 10.
Qed.

(** X24. [resetPassword] never throws and leaves the store as it is: it
    makes the one backend call and reports success exactly when the call
    returned without an error. *)
Theorem resetPassword_leaves_store (be : Backend) (email : string) (w : World) :
  exists r,
    resetPassword be email w
    = (Normal r,
       {| store := store w;
          trace := trace w ++ [Call (ResetPasswordForEmail email)] |})
    /\ (success r = true <-> auth_resetPassword be email = Resolved None).
Proof.
  unfold resetPassword. run_async.
  destruct (auth_resetPassword be email) as [[message|]|message]; cbn;
    eexists; (split; [reflexivity|]); cbn; split; try reflexivity; discriminate.
Qed.

(** X26. The listener registered by the store has no [try]: when the
    profile fetch of a [SIGNED_IN] event is rejected, the listener throws
    with [loading] left on, the session already replaced and the user
    untouched. (The hook's listener, by contrast, never throws.) *)
Theorem store_listener_rejection_leaves_loading
    (be : Backend) (s : Session.t) (id message : string) (w : World) :
  Session.user s = Some id ->
  users_select be id = Rejected message ->
  exists w',
    onAuthStateChange be SIGNED_IN (Some s) w = (Throw message, w')
    /\ loading (state (store w')) = true
    /\ session (state (store w')) = Some s
    /\ user (state (store w')) = user (state (store w))
    /\ isAuthenticated (state (store w')) = isAuthenticated (state (store w)).
Proof.
  intros Hid Hp. unfold onAuthStateChange, session_user. run_async.
  rewrite Hid. cbn. rewrite Hp. cbn.
  eexists. split; [reflexivity|]. repeat split.
Qed.

Lemma store_listener_rejection_witness :
  exists w',
    onAuthStateChange profile_unreachable SIGNED_IN (Some token) first_visit
    = (Throw "Failed to fetch", w')
    /\ loading (state (store w')) = true
    /\ session (state (store w')) = Some token
    /\ user (state (store w')) = user (state (store first_visit))
    /\ isAuthenticated (state (store w'))
       = isAuthenticated (state (store first_visit)).
Proof.
  apply (store_listener_rejection_leaves_loading profile_unreachable token
           "user-1" "Failed to fetch" first_visit);
    reflexivity.
Defined.

(** X27. When the backend's sign-out call returns, with or without an
    error in its answer, the hook's [signOut] followed by a page reload
    gives the state of a first visit: no user, no session, no hospital,
    the flag off. The entry left in [localStorage] is the cleared one. *)
Theorem signOut_then_reload_is_first_visit
    (be : Backend) (st : Store) (answer : option string) :
  auth_signOut be = Resolved answer ->
  let after := exec (UseAuth.signOut be) st in
  state (reload after) = initialState
  /\ storage (reload after) = Some (partialize cleared).
Proof.
  intros H after. subst after. unfold exec.
  rewrite (AuthFacts.signOut_resolved_clears be _ answer H).
  split; reflexivity.
Qed.

Lemma signOut_then_reload_witness :
  let after := exec (UseAuth.signOut (backend (Resolved None) written)) signed_in in
  state (reload after) = initialState
  /\ storage (reload after) = Some (partialize cleared).
Proof.
  apply (signOut_then_reload_is_first_visit (backend (Resolved None) written)
           signed_in None).
  reflexivity.
Defined.

End SessionFacts.

(** ** The persisted entry follows the state *)
Module PersistFacts.

Import AuthStore StoreSpec PersistSpec Samples.
Local Open Scope async_scope.

Lemma sync_ret {A : Type} (a : A) : keeps_in_sync (ret a).
Proof. intros w H. exact H. Qed.

Lemma sync_bind {A B : Type} (m : Async A) (k : A -> Async B) :
  keeps_in_sync m -> (forall a, keeps_in_sync (k a)) -> keeps_in_sync (bind m k).
Proof.
  intros Hm Hk w H. unfold bind. specialize (Hm w H).
  destruct (m w) as [[a|message] w']; cbn in *.
  - apply Hk. exact Hm.
  - exact Hm.
Qed.

Lemma sync_try_catch {A : Type} (body : Async A) (handler : string -> Async A) :
  keeps_in_sync body -> (forall message, keeps_in_sync (handler message)) ->
  keeps_in_sync (try_catch body handler).
Proof.
  intros Hb Hh w H. unfold try_catch. specialize (Hb w H).
  destruct (body w) as [[a|message] w']; cbn in *.
  - exact Hb.
  - apply Hh. exact Hb.
Qed.

Lemma sync_try_finally {A : Type} (body : Async A) (final : Async unit) :
  keeps_in_sync body -> keeps_in_sync final -> keeps_in_sync (try_finally body final).
Proof.
  intros Hb Hf w H. unfold try_finally. specialize (Hb w H).
  destruct (body w) as [c w']; cbn in *. specialize (Hf w' Hb).
  destruct (final w') as [[[]|message] w'']; exact Hf.
Qed.

Lemma sync_log (e : Event) : keeps_in_sync (log e).
Proof. intros w H. exact H. Qed.

Lemma sync_get : keeps_in_sync get.
Proof. intros w H. exact H. Qed.

Lemma sync_await {A : Type} (request : Request) (answer : Settled A) :
  keeps_in_sync (await request answer).
Proof. intros w H. unfold await. destruct answer; exact H. Qed.

Lemma sync_removeItem : keeps_in_sync removeItem.
Proof. intros w _. exact I. Qed.

(** Every [set] writes the entry anew. *)
Lemma sync_set (update : AuthState -> AuthState) : keeps_in_sync (set update).
Proof. intros w _. reflexivity. Qed.

Create HintDb sync discriminated.

#[local] Hint Resolve sync_ret sync_log sync_get sync_await sync_removeItem
  sync_set : sync.

Ltac sync :=
  repeat first
    [ progress intros
    | solve [auto with sync]
    | apply sync_bind
    | apply sync_try_catch
    | apply sync_try_finally
    | match goal with
      | |- keeps_in_sync (match ?x with _ => _ end) => destruct x
      | |- keeps_in_sync (let _ := _ in _) => cbv zeta
      | |- keeps_in_sync (setUser _) => apply sync_set
      | |- keeps_in_sync (setSession _) => apply sync_set
      | |- keeps_in_sync (setLoading _) => apply sync_set
      end ].

Lemma sync_signOut (be : Backend) : keeps_in_sync (signOut be).
Proof. unfold signOut. sync. Qed.

#[local] Hint Resolve sync_signOut : sync.

Lemma sync_hook_signOut (be : Backend) : keeps_in_sync (UseAuth.signOut be).
Proof. unfold UseAuth.signOut. sync. Qed.

#[local] Hint Resolve sync_hook_signOut : sync.

Lemma run_in_sync (op : Operation) (st : Store) : in_sync st -> in_sync (run op st).
Proof.
  assert (E : forall (A : Type) (m : Async A),
            keeps_in_sync m -> in_sync st -> in_sync (exec m st)).
  { intros A m Hm H. apply (Hm {| store := st; trace := [] |}). exact H. }
  destruct op; cbn [run]; try (apply E);
    try (unfold signIn, signUp, resetPassword, updateProfile, initialize,
           onAuthStateChange, UseAuth.onAuthStateChange, UseAuth.refreshSession;
         sync; fail).
  intros H. unfold reload, rehydrate, in_sync in *. cbn.
  destruct (storage st) as [p|]; [destruct p; reflexivity | exact I].
Qed.

(** X23. In every store reached by running operations one after another,
    page reloads included, the persisted entry is either absent or exactly
    what [partialize] keeps of the current state: [localStorage] never
    holds a user, hospital or flag that differs from the store's. A reload
    therefore brings back the same user, hospital and flag, with no
    session and [loading] on. *)
Theorem persisted_entry_mirrors_state (st : Store) :
  reachable st ->
  in_sync st
  /\ (is_Some (storage st) ->
      user (state (reload st)) = user (state st)
      /\ hospitalId (state (reload st)) = hospitalId (state st)
      /\ isAuthenticated (state (reload st)) = isAuthenticated (state st)
      /\ session (state (reload st)) = None
      /\ loading (state (reload st)) = true).
Proof.
  intros H.
  assert (S : in_sync st).
  { induction H as [|op st _ IH]; [exact I | apply run_in_sync; exact IH]. }
  split; [exact S|]. intros [p Hp]. unfold in_sync in S. rewrite Hp in S.
  unfold reload, rehydrate. rewrite Hp, S. cbn. repeat split.
Qed.

Lemma persisted_entry_witness :
  in_sync signed_in
  /\ (is_Some (storage signed_in) ->
      user (state (reload signed_in)) = user (state signed_in)
      /\ hospitalId (state (reload signed_in)) = hospitalId (state signed_in)
      /\ isAuthenticated (state (reload signed_in)) = isAuthenticated (state signed_in)
      /\ session (state (reload signed_in)) = None
      /\ loading (state (reload signed_in)) = true).
Proof.
  apply (persisted_entry_mirrors_state signed_in).
  apply reachable_run, reachable_initial.
Defined.

End PersistFacts.

(** ** Roles: the guard, the permission hook and the sidebar *)
Module NavigationFacts.

Import RouteGuard Permissions AppRoutes Samples.

(** Past the first four gates only the role decides. *)
Lemma past_four_gates (i : Inputs) (fallback : string) :
  ProtectedRoute {| requiredRole := None; fallbackPath := fallback |} i = Content ->
  exists u,
    RouteGuard.user i = Some u
    /\ forall r,
         ProtectedRoute {| requiredRole := r; fallbackPath := fallback |} i
         = match required r with
           | Some roles =>
               if includes roles (User.role u) then Content else AccessDenied roles
           | None => Content
           end.
Proof.
  unfold ProtectedRoute. cbn [RouteGuard.requiredRole fallbackPath required].
  destruct (RouteGuard.loading i || negb (sessionChecked i)); [discriminate|].
  destruct (RouteGuard.user i) as [u|]; [|discriminate].
  destruct (negb (RouteGuard.isAuthenticated i)); [discriminate|].
  destruct (negb (User.is_active u)); [discriminate|].
  destruct (negb (Consultation.truthy_string (RouteGuard.hospitalId i))); [discriminate|].
  intros _. exists u. split; [reflexivity|]. intros r.
  destruct (required r) as [roles|]; [|reflexivity].
  destruct (includes roles (User.role u)); reflexivity.
Qed.

(** X18. For a visitor who is past the loading, authentication, active
    and hospital gates, the guard shows a page with a required role
    exactly when [usePermissions().hasRole] answers true for that role,
    for a role name or a list of them. The one exception is the empty
    role name, which the guard reads as "no role required" and lets
    everyone through. *)
Theorem hasRole_agrees_with_guard (i : Inputs) (fallback : string) :
  ProtectedRoute {| requiredRole := None; fallbackPath := fallback |} i = Content ->
  (forall r,
     r <> OneRole "" ->
     ProtectedRoute {| requiredRole := Some r; fallbackPath := fallback |} i = Content
     <-> hasRole (RouteGuard.user i) r = true)
  /\ ProtectedRoute {| requiredRole := Some (OneRole ""); fallbackPath := fallback |} i
     = Content.
Proof.
  intros H. destruct (past_four_gates i fallback H) as (u & Hu & Hr). split.
  - intros r Hne. rewrite Hr, Hu. unfold hasRole, required, roles_of.
    destruct r as [role|roles].
    + destruct (String.eqb role "") eqn:E.
      * apply String.eqb_eq in E. subst role. contradiction Hne. reflexivity.
      * destruct (includes [role] (User.role u)); split; try reflexivity; discriminate.
    + destruct (includes roles (User.role u)); split; try reflexivity; discriminate.
  - rewrite Hr. reflexivity.
Qed.

Lemma hasRole_agrees_witness :
  (forall r,
     r <> OneRole "" ->
     ProtectedRoute {| requiredRole := Some r; fallbackPath := "/login" |} nurse_visit
     = Content
     <-> hasRole (RouteGuard.user nurse_visit) r = true)
  /\ ProtectedRoute {| requiredRole := Some (OneRole ""); fallbackPath := "/login" |}
       nurse_visit
     = Content.
Proof.
  apply (hasRole_agrees_with_guard nurse_visit "/login"). reflexivity.
Defined.

(** X19. The sidebar and the routes agree. For a visitor past the first
    four gates, each navigation item leads to a declared page, and the
    item is SidebarLayout.shown exactly when the guard around that page shows it: no
    item leads to an access-denied view and no reachable page is hidden. *)
Theorem sidebar_matches_page_guards (i : Inputs) :
  ProtectedRoute {| requiredRole := None; fallbackPath := "/login" |} i = Content ->
  Forall
    (fun item =>
       exists guard,
         guardOf (SidebarLayout.path item) pageGuards = Some guard
         /\ (SidebarLayout.shown (RouteGuard.user i) item = true
             <-> ProtectedRoute {| requiredRole := guard; fallbackPath := "/login" |} i
                 = Content))
    SidebarLayout.navigationItems.
Proof.
  intros H. destruct (past_four_gates i "/login" H) as (u & Hu & Hr).
  unfold SidebarLayout.navigationItems.
  repeat (apply Forall_cons; split;
          [eexists; split; [reflexivity|];
           rewrite Hr, Hu; unfold SidebarLayout.shown; cbn [SidebarLayout.requiredRole required];
           try destruct (includes _ (User.role u));
           split; try reflexivity; discriminate|]).
  apply Forall_nil. exact I.
Qed.

Lemma sidebar_matches_witness :
  Forall
    (fun item =>
       exists guard,
         guardOf (SidebarLayout.path item) pageGuards = Some guard
         /\ (SidebarLayout.shown (RouteGuard.user nurse_visit) item = true
             <-> ProtectedRoute {| requiredRole := guard; fallbackPath := "/login" |}
                   nurse_visit
                 = Content))
    SidebarLayout.navigationItems.
Proof.
  apply (sidebar_matches_page_guards nurse_visit). reflexivity.
Defined.

(** *** The highlighted item *)

(** An active route is a prefix of the path, up to the closing slash. *)
Lemma active_prefix (pathname p : string) :
  SidebarLayout.isActiveRoute pathname p = true ->
  String.prefix (p +:+ "/") (pathname +:+ "/") = true.
Proof.
  unfold SidebarLayout.isActiveRoute. intros H. apply orb_prop in H as [H|H].
  - apply String.eqb_eq in H. subst. apply prefix_append. exists "". 
    rewrite append_assoc. reflexivity.
  - apply prefix_append in H as [c H]. apply prefix_append. exists (c +:+ "/").
    rewrite H, append_assoc. reflexivity.
Qed.

(** X20. On every path at most one navigation item is highlighted:
    [SidebarLayout.isActiveRoute] matches a path and everything below it, and no item's
    path lies below another's. *)
Theorem at_most_one_item_active (pathname : string) (a b : SidebarLayout.NavigationItem) :
  In a SidebarLayout.navigationItems -> In b SidebarLayout.navigationItems ->
  SidebarLayout.isActiveRoute pathname (SidebarLayout.path a) = true ->
  SidebarLayout.isActiveRoute pathname (SidebarLayout.path b) = true ->
  a = b.
Proof.
  intros Ha Hb Aa Ab.
  apply active_prefix in Aa, Ab.
  pose proof (prefix_comparable _ _ _ Aa Ab) as C. clear Aa Ab.
  unfold SidebarLayout.navigationItems in Ha, Hb. cbn [In] in Ha, Hb.
  repeat (destruct Ha as [<-|Ha]; [|]); try contradiction;
    repeat (destruct Hb as [<-|Hb]; [|]); try contradiction;
    try reflexivity;
    destruct C as [C|C]; vm_compute in C; discriminate C.
Qed.

Lemma at_most_one_item_witness :
  let billing :=
    {| SidebarLayout.id := "billing"; SidebarLayout.label := "Billing";
       SidebarLayout.path := "/billing"; SidebarLayout.badge := None;
       SidebarLayout.requiredRole := None |} in
  billing = billing.
Proof.
  intros billing.
  apply (at_most_one_item_active "/billing/opd" billing billing);
    vm_compute; auto 10.
Defined.

(** X25. The guard and the public routes do not send a visitor back and
    forth. In every store reached by running operations, whenever a guard
    redirects to the login page, the login and registration routes show
    their pages; and whenever those routes redirect to the dashboard, no
    guard redirects. *)
Theorem guard_and_login_do_not_bounce (st : AuthStore.Store) :
  StoreSpec.reachable st ->
  forall (props : Props) (isInitialized sessionChecked : bool) (pathname : string),
    let rendered :=
      ProtectedRoute props
        (useAuth (AuthStore.state st) isInitialized sessionChecked pathname) in
    let flag := AuthStore.isAuthenticated (AuthStore.state st) in
    (navigates rendered = true ->
     loginElement flag = LoginPage /\ registerElement flag = HospitalRegisterPage)
    /\ (loginElement flag = NavigateToDashboard -> navigates rendered = false).
Proof.
  intros H props isInitialized sessionChecked pathname rendered flag.
  destruct (AuthFacts.reachable_consistent st H) as [Hc _].
  unfold StoreSpec.consistent in Hc. subst rendered flag.
  unfold ProtectedRoute, useAuth, loginElement, registerElement.
  cbn [RouteGuard.user RouteGuard.loading RouteGuard.isAuthenticated
       RouteGuard.hospitalId RouteGuard.sessionChecked RouteGuard.pathname].
  rewrite Hc.
  destruct (AuthStore.loading (AuthStore.state st) || negb isInitialized
            || negb sessionChecked);
    [cbn; split; [discriminate | destruct (bool_decide _); reflexivity]|].
  destruct (AuthStore.user (AuthStore.state st)) as [u|].
  - rewrite bool_decide_eq_true_2 by (eexists; reflexivity). cbn.
    split; [|intros _];
      repeat match goal with
             | |- context [if ?b then _ else _] => destruct b
             | |- context [match ?b with Some _ => _ | None => _ end] => destruct b
             end; cbn; try discriminate; reflexivity.
  - rewrite bool_decide_eq_false_2 by (intros [? E]; discriminate E). cbn.
    split; [split; reflexivity | discriminate].
Qed.

Lemma guard_and_login_witness :
  let st := StoreSpec.run (StoreSpec.DoInitialize MoreSamples.wrong_password)
              AuthStore.initialStore in
  let rendered :=
    ProtectedRoute {| requiredRole := None; fallbackPath := "/login" |}
      (useAuth (AuthStore.state st) true true "/patients") in
  let flag := AuthStore.isAuthenticated (AuthStore.state st) in
  (navigates rendered = true ->
   loginElement flag = LoginPage /\ registerElement flag = HospitalRegisterPage)
  /\ (loginElement flag = NavigateToDashboard -> navigates rendered = false).
Proof.
  apply (guard_and_login_do_not_bounce
           (StoreSpec.run (StoreSpec.DoInitialize MoreSamples.wrong_password)
              AuthStore.initialStore)
           (StoreSpec.reachable_run _ _ StoreSpec.reachable_initial)
           {| requiredRole := None; fallbackPath := "/login" |} true true "/patients").
Defined.

(** After a failed start the guard does redirect, and the login page shows. *)
Example guard_redirects_after_failed_start :
  let st := StoreSpec.run (StoreSpec.DoInitialize MoreSamples.wrong_password)
              AuthStore.initialStore in
  ProtectedRoute {| requiredRole := None; fallbackPath := "/login" |}
    (useAuth (AuthStore.state st) true true "/patients")
  = NavigateTo "/login" "/patients"
  /\ loginElement (AuthStore.isAuthenticated (AuthStore.state st)) = LoginPage.
Proof. vm_compute. split; reflexivity. Qed.

End NavigationFacts.

(** ** The consultation form: what is accepted, what is sent *)
Module FormFacts.

Import JsNumber Consultation FormSpec Samples.

Lemma number_min_max_optional_nil (field : string) (lo hi : float) (v : option float) :
  isNaN lo = false -> isNaN hi = false ->
  number_min_max_optional field lo hi v = [] <-> in_range lo hi v.
Proof.
  intros Hlo Hhi. destruct v as [x|]; cbn; [|tauto].
  rewrite (leb_iff_not_ltb lo x Hlo), (leb_iff_not_gtb hi x Hhi).
  destruct (isNaN x); [split; [discriminate | intros [[H _] _]; discriminate H]|].
  destruct (x <? lo)%float, (hi <? x)%float; cbn; split;
    try discriminate; try tauto; intros [[_ H] [_ H']]; discriminate.
Qed.

Lemma number_optional_nil (field : string) (v : option float) :
  number_optional field v = [] <-> a_number v.
Proof.
  destruct v as [x|]; cbn; [|tauto].
  destruct (isNaN x); split; try discriminate; reflexivity.
Qed.

Lemma issues_nil (f : ConsultationForm) :
  issues f = []
  <-> in_range 0 500 (weight f) /\ in_range 0 300 (height f)
      /\ a_number (bmi f) /\ a_number (bsa f)
      /\ in_range 50 300 (systolic f) /\ in_range 30 200 (diastolic f)
      /\ in_range 30 200 (pulse f) /\ in_range 90 110 (temperature f)
      /\ in_range 70 100 (spo2 f).
Proof.
  unfold issues.
  rewrite !app_nil, !number_optional_nil.
  rewrite !number_min_max_optional_nil by reflexivity.
  tauto.
Qed.

(** X11. The schema accepts a form exactly when every vital is left out
    or is a number within its range, the bounds included (weight 0..500,
    height 0..300, systolic 50..300, diastolic and pulse 30..200,
    temperature 90..110, SpO2 70..100), and the body mass index and the
    body surface area are left out or numbers. A NaN, which an emptied
    number box gives, is refused. *)
Theorem schema_accepts_iff_in_range (f : ConsultationForm) :
  consultationSchema f = inr f
  <-> in_range 0 500 (weight f) /\ in_range 0 300 (height f)
      /\ a_number (bmi f) /\ a_number (bsa f)
      /\ in_range 50 300 (systolic f) /\ in_range 30 200 (diastolic f)
      /\ in_range 30 200 (pulse f) /\ in_range 90 110 (temperature f)
      /\ in_range 70 100 (spo2 f).
Proof.
  rewrite <- issues_nil. unfold consultationSchema.
  destruct (issues f); split; try reflexivity; discriminate.
Qed.

(** X12. With a complete context, [onSubmit] sends exactly one update,
    between [setSaving(true)] and a final [setSaving(false)] that comes on
    every path. The page leaves for the appointment list exactly when the
    update was answered without an error; otherwise the error is logged
    and shown in a "Save Failed" toast and the page stays. *)
Theorem onSubmit_leaves_only_when_saved
    (ctx : Context) (now : Z) (backend : Backend) (data : ConsultationForm)
    (id : string) :
  appointmentId ctx = Some id -> complete ctx = true ->
  let effects := onSubmit ctx now backend data in
  let saved := backend id (patch_of now data) = Resolved {| error_message := None |} in
  updates effects = [(id, patch_of now data)]
  /\ head effects = Some (SetSaving true)
  /\ last effects = Some (SetSaving false)
  /\ (In (Navigate "/appointments") effects <-> saved)
  /\ (forall to, In (Navigate to) effects -> saved)
  /\ ((exists description, In (Toast "Save Failed" description "destructive") effects)
      <-> ~ saved).
Proof.
  intros Hid Hc effects saved. subst effects saved. unfold onSubmit.
  rewrite Hid. unfold complete in Hc. rewrite Hid in Hc.
  apply andb_prop in Hc as [Hc Hu]. apply andb_prop in Hc as [Ha Hh].
  rewrite Ha, Hh, Hu. cbn [negb orb].
  destruct (backend id (patch_of now data)) as [[[message|]]|message]; cbn;
    (split; [reflexivity|]); (split; [reflexivity|]); (split; [reflexivity|]).
  - split; [|split].
    + split; [intros H; exfalso; intuition congruence | discriminate].
    + intros to H. exfalso. intuition congruence.
    + split; [discriminate|]. intros _. eexists. do 3 right. left. reflexivity.
  - split; [|split].
    + split; [reflexivity | intros _; do 3 right; left; reflexivity].
    + reflexivity.
    + split; [|intros H; contradiction H; reflexivity].
      intros [d H] _. intuition congruence.
  - split; [|split].
    + split; [intros H; exfalso; intuition congruence | discriminate].
    + intros to H. exfalso. intuition congruence.
    + split; [discriminate|]. intros _. eexists. do 3 right. left. reflexivity.
Qed.

Lemma onSubmit_leaves_witness :
  let effects := onSubmit complete_context 0 accepting form_70_175 in
  let saved :=
    accepting "appointment-1" (patch_of 0 form_70_175)
    = Resolved {| error_message := None |} in
  updates effects = [("appointment-1", patch_of 0 form_70_175)]
  /\ head effects = Some (SetSaving true)
  /\ last effects = Some (SetSaving false)
  /\ (In (Navigate "/appointments") effects <-> saved)
  /\ (forall to, In (Navigate to) effects -> saved)
  /\ ((exists description, In (Toast "Save Failed" description "destructive") effects)
      <-> ~ saved).
Proof.
  apply (onSubmit_leaves_only_when_saved complete_context 0 accepting form_70_175
           "appointment-1");
    reflexivity.
Defined.

(** X13. Without an appointment id, a hospital id or a user, submitting a
    form does nothing that can be seen: no saving flag, no update, no
    toast, no navigation. A valid form reports no issue either, so the
    click has no effect at all. *)
Theorem submit_without_context_is_silent
    (ctx : Context) (now : Z) (backend : Backend) (p : Page) :
  complete ctx = false ->
  snd (handleSubmit ctx now backend p) = []
  /\ (issues (form p) = [] -> handleSubmit ctx now backend p = ([], [])).
Proof.
  intros Hc.
  assert (E : forall data, onSubmit ctx now backend data = []).
  { intros data. unfold onSubmit, complete in *.
    destruct (appointmentId ctx) as [id|]; [|reflexivity].
    destruct (truthy_string (Some id)), (truthy_string (hospitalId ctx)), (user ctx);
      try discriminate Hc; reflexivity. }
  unfold handleSubmit, consultationSchema.
  destruct (issues (form p)); cbn; [rewrite E|]; split; try reflexivity.
  discriminate.
Qed.

Lemma submit_without_context_witness :
  snd (handleSubmit {| appointmentId := Some "appointment-1"; hospitalId := None;
                       user := true |} 0 accepting (page_of form_70_175)) = []
  /\ (issues (form (page_of form_70_175)) = [] ->
      handleSubmit {| appointmentId := Some "appointment-1"; hospitalId := None;
                      user := true |} 0 accepting (page_of form_70_175) = ([], [])).
Proof.
  apply (submit_without_context_is_silent
           {| appointmentId := Some "appointment-1"; hospitalId := None; user := true |}
           0 accepting (page_of form_70_175)).
  reflexivity.
Defined.

(** X14. The update sent depends on the form only through the fields
    [onSubmit] reads: forms that agree on the vitals, the symptoms, the
    names of the diagnoses, the prescription, the follow-up date and the
    clinical notes have the same effects. The follow-up label, the
    treatment plan and the codes and types of the diagnoses do not reach
    the backend. *)
Theorem update_reads_only_saved_fields
    (ctx : Context) (now : Z) (backend : Backend) (f g : ConsultationForm) :
  saved f = saved g ->
  onSubmit ctx now backend f = onSubmit ctx now backend g.
Proof.
  unfold saved. intros H.
  injection H as Hw Hh Hbmi Hbsa Hs Hd Hp Ht Ho Hsy Hdi Hm Hi Ha Hf Hc.
  assert (E : patch_of now f = patch_of now g).
  { unfold patch_of, blood_pressure_of.
    rewrite Hw, Hh, Hbmi, Hbsa, Hs, Hd, Hp, Ht, Ho, Hsy, Hdi, Hm, Hi, Ha, Hf, Hc.
    reflexivity. }
  unfold onSubmit. rewrite E. reflexivity.
Qed.

Lemma update_reads_only_saved_witness :
  onSubmit complete_context 0 accepting form_70_175
  = onSubmit complete_context 0 accepting
      (quickPick IST early_morning "As needed" form_70_175).
Proof.
  apply (update_reads_only_saved_fields complete_context 0 accepting form_70_175
           (quickPick IST early_morning "As needed" form_70_175)).
  reflexivity.
Defined.

(** X15. The BMI effect writes the two derived vitals and nothing else.
    When the weight or the height is falsy (zero or NaN, as after the
    box is emptied) it writes nothing, so the body mass index and the
    body surface area computed earlier stay on the form. *)
Theorem derived_vitals_only (f : ConsultationForm) :
  entered (recomputeDerivedVitals f) = entered f
  /\ (forall w, weight f = Some w -> ToBoolean w = false ->
        recomputeDerivedVitals f = f)
  /\ (forall h, height f = Some h -> ToBoolean h = false ->
        recomputeDerivedVitals f = f).
Proof.
  unfold recomputeDerivedVitals. split; [|split].
  - destruct (weight f) as [w|], (height f) as [h|]; try reflexivity.
    destruct (ToBoolean w && ToBoolean h); reflexivity.
  - intros w Hw Tw. rewrite Hw, Tw. destruct (height f); reflexivity.
  - intros h Hh Th. rewrite Hh, Th.
    destruct (weight f) as [w|]; [rewrite andb_false_r|]; reflexivity.
Qed.

Example zero_and_NaN_are_falsy :
  ToBoolean 0 = false /\ ToBoolean nan = false /\ ToBoolean (-0) = false.
Proof. vm_compute. repeat split. Qed.

End FormFacts.

(** ** The searchable pick-lists *)
Module PickListFacts.

Import Consultation PickLists SearchSpec.

(** [includes] finds exactly the substrings. *)
Lemma includes_contains (hay needle : string) :
  includes hay needle = true <-> contains hay needle.
Proof.
  unfold contains. induction hay as [|x hay IH].
  - cbn [includes]. rewrite orb_false_r, prefix_append. split.
    + intros [c H]. exists "", c. exact H.
    + intros ([|y before] & after & H); [exists after; exact H | discriminate H].
  - cbn [includes]. rewrite orb_true_iff, prefix_append, IH. split.
    + intros [[c H]|(before & after & H)].
      * exists "", c. exact H.
      * exists (String x before), after. rewrite H. reflexivity.
    + intros ([|y before] & after & H).
      * left. exists after. exact H.
      * right. injection H as _ H. exists before, after. exact H.
Qed.

Lemma contains_refl (s : string) : contains s s.
Proof.
  exists "", "". change ("" +:+ s +:+ "") with (s +:+ "").
  induction s as [|x s IH]; [reflexivity|].
  change (String x s +:+ "") with (String x (s +:+ "")). rewrite <- IH. reflexivity.
Qed.

Section Search.

Variable toLowerCase : string -> string.

Lemma dropdown_lists {A : Type} (search : string) (hit : A -> bool)
    (catalogue : list A) (P : A -> Prop) :
  (forall entry, hit entry = true <-> P entry) ->
  lists (dropdown search hit catalogue) search catalogue P.
Proof.
  intros H. unfold dropdown, lists.
  destruct (String.eqb search "") eqn:E.
  - apply String.eqb_eq. exact E.
  - split; [apply String.eqb_neq; exact E|]. split.
    + apply List_filter_sublist.
    + intros entry. rewrite filter_In, H. reflexivity.
Qed.

(** X21. Each search box lists, in the catalogue's order, exactly the
    catalogue entries whose lower-cased name contains the lower-cased
    search text (for a diagnosis: the name or the code), and shows no
    list while the box is empty. *)
Theorem search_lists_matching_entries (p : Page) :
  let found (search name : string) :=
    contains (toLowerCase name) (toLowerCase search) in
  lists (symptomDropdown toLowerCase p) (symptomSearch p) mockSymptoms
    (found (symptomSearch p))
  /\ lists (diagnosisDropdown toLowerCase p) (diagnosisSearch p) mockDiagnoses
       (fun d => found (diagnosisSearch p) (snd d) \/ found (diagnosisSearch p) (fst d))
  /\ lists (labDropdown toLowerCase p) (labSearch p) mockLabTests
       (found (labSearch p))
  /\ lists (radiologyDropdown toLowerCase p) (radiologySearch p) mockRadiologyTests
       (found (radiologySearch p))
  /\ lists (medicationDropdown toLowerCase p) (medicationSearch p) mockMedications
       (fun med => found (medicationSearch p) (name med)).
Proof.
  intros found. subst found.
  repeat split; apply dropdown_lists; intros entry; unfold matches;
    rewrite ?orb_true_iff, !includes_contains; reflexivity.
Qed.

(** X22. Typing the full name of a catalogue entry lists that entry,
    whatever the case mapping; picking an entry empties its search box, so
    its list closes; every medication of the catalogue has a first dose,
    which the pick fills in, with frequency "BD", duration "5 days",
    quantity "10" and instruction "After food". *)
Theorem type_pick_close (p : Page) :
  Forall (fun entry =>
            (exists results,
               symptomDropdown toLowerCase (setSymptomSearch entry p) = Some results
               /\ In entry results)
            /\ symptomDropdown toLowerCase (addSymptom entry p) = None)
    mockSymptoms
  /\ Forall (fun d =>
               (exists results,
                  diagnosisDropdown toLowerCase (setDiagnosisSearch (snd d) p)
                  = Some results
                  /\ In d results)
               /\ diagnosisDropdown toLowerCase (addDiagnosis (fst d) (snd d) p) = None)
       mockDiagnoses
  /\ Forall (fun med =>
               (exists results,
                  medicationDropdown toLowerCase (setMedicationSearch (name med) p)
                  = Some results
                  /\ In med results)
               /\ exists dose picked,
                    head (commonDoses med) = Some dose
                    /\ pickMedication med p = Some picked
                    /\ medicationDropdown toLowerCase picked = None
                    /\ medications (form picked)
                       = medications (form p)
                         ++ [{| Medication.type := type med;
                                Medication.name := name med;
                                Medication.dose := dose;
                                Medication.frequency := "BD";
                                Medication.duration := "5 days";
                                Medication.quantity := "10";
                                Medication.instruction := "After food" |}])
       mockMedications.
Proof.
  assert (Hit : forall s, matches toLowerCase s s = true).
  { intros s. unfold matches. apply includes_contains, contains_refl. }
  split; [|split].
  - unfold mockSymptoms.
    repeat (apply Forall_cons; split;
            [split; [|reflexivity]; eexists; split; [reflexivity|];
             apply filter_In; split; [cbn; auto 20 | apply Hit]|]).
    apply Forall_nil. exact I.
  - unfold mockDiagnoses.
    repeat (apply Forall_cons; split;
            [split; [|reflexivity]; eexists; split; [reflexivity|];
             apply filter_In; split;
             [cbn; auto 20 | cbn [fst snd diagnosisSearch setDiagnosisSearch];
                             rewrite Hit; reflexivity]|]).
    apply Forall_nil. exact I.
  - unfold mockMedications.
    repeat (apply Forall_cons; split;
            [split;
             [eexists; split; [reflexivity|];
              apply filter_In; split; [cbn; auto 20 | apply Hit]
             |eexists; eexists; repeat split]|]).
    apply Forall_nil. exact I.
Qed.

End Search.

End PickListFacts.

(** ** Dates: local calendar against UTC strings *)
Module DateFacts.

Import JsDate Consultation Dashboard Samples.
Local Open Scope Z_scope.














(** In India on 15 March 2024 the month's revenue starts with the bills
    of 29 February. *)
Example startOfMonth_in_India :
  startOfMonth IST (utc 2024 3 15 12 0) (utc 2024 3 15 12 0) = "2024-02-29"
  /\ startOfMonth 0 (utc 2024 3 15 12 0) (utc 2024 3 15 12 0) = "2024-03-01".
Proof. vm_compute. split; reflexivity. Qed.

End DateFacts.
